(** * DownloadHelper (download-helper.js): a shallow embedding and its properties

    The browser-side helper of the Tools Hub is embedded function by
    function.  JavaScript values are an inductive type, a method that can
    raise is a computation in a small trace-and-exception monad, and the
    browser (canvas encoder, object URLs, DOM) is a record of capabilities
    whose calls are logged in the trace. *)

From Stdlib Require Import String Ascii List Bool Arith ZArith QArith Lia.
From Stdlib Require Import DecimalString Qround Qabs Lqa.
Import ListNotations.
Close Scope Q_scope.
Local Open Scope list_scope.
Local Open Scope string_scope.

(** ** Strings

    A JavaScript string is a [string]; each [ascii] stands for one UTF-16
    code unit in the range 0..255 (the Latin-1 block). *)

Module Str.

(** Code of a character, used for range tests such as [a-z]. *)
Definition code (c : ascii) : nat := nat_of_ascii c.

Definition in_range (lo hi : nat) (c : ascii) : bool :=
  Nat.leb lo (code c) && Nat.leb (code c) hi.

(** [String.prototype.toLowerCase] on one code unit of the Latin-1 block:
    A-Z and the accented capitals U+00C0..U+00DE (U+00D7, the multiplication
    sign, has no case) move 32 places up; everything else is unchanged. *)
Definition lower_char (c : ascii) : ascii :=
  if in_range 65 90 c || (in_range 192 222 c && negb (Nat.eqb (code c) 215))
  then ascii_of_nat (code c + 32)
  else c.

Fixpoint toLowerCase (s : string) : string :=
  match s with
  | EmptyString => EmptyString
  | String c r => String (lower_char c) (toLowerCase r)
  end.

(** [s.startsWith(p)]. *)
Fixpoint startsWith (p s : string) : bool :=
  match p, s with
  | EmptyString, _ => true
  | String a p', String b s' => Ascii.eqb a b && startsWith p' s'
  | String _ _, EmptyString => false
  end.

(** [s.includes(p)]: [p] starts at some position of [s]. *)
Fixpoint includes (p s : string) : bool :=
  startsWith p s ||
  match s with
  | EmptyString => false
  | String _ r => includes p r
  end.

(** [s.substring(0, n)]. *)
Fixpoint take (n : nat) (s : string) : string :=
  match n, s with
  | O, _ => EmptyString
  | S _, EmptyString => EmptyString
  | S k, String c r => String c (take k r)
  end.

Fixpoint all (f : ascii -> bool) (s : string) : bool :=
  match s with
  | EmptyString => true
  | String c r => f c && all f r
  end.

Fixpoint map (f : ascii -> ascii) (s : string) : string :=
  match s with
  | EmptyString => EmptyString
  | String c r => String (f c) (map f r)
  end.

(** [s.split(sep)] for a one-character separator; the result is never
    empty. *)
Fixpoint split (sep : ascii) (s : string) : list string :=
  match s with
  | EmptyString => [EmptyString]
  | String c r =>
      if Ascii.eqb c sep then EmptyString :: split sep r
      else match split sep r with
           | h :: t => String c h :: t
           | [] => [String c EmptyString]
           end
  end.

(** The propositional reading of [includes]: [p] occurs inside [s]. *)
Definition Occurs (p s : string) : Prop :=
  exists a b, s = a ++ p ++ b.

End Str.

(** ** Filename sanitisation (cleanFilename, lines 147-152) *)

(** The class [[^/.]] of the first regular expression. *)
Definition ext_char (c : ascii) : bool :=
  negb (Ascii.eqb c "/") && negb (Ascii.eqb c ".").

(** Does [/\.[^/.]+$/] match at the head of [s], that is: a dot, then one
    or more characters other than '/' and '.', then the end of input. *)
Definition ext_match (s : string) : bool :=
  match s with
  | String c r =>
      Ascii.eqb c "." &&
      match r with EmptyString => false | String _ _ => Str.all ext_char r end
  | EmptyString => false
  end.

(** [.replace(/\.[^/.]+$/, "")]: the leftmost match is removed; as the
    match is anchored at the end, what is left is the text before it. *)
Fixpoint strip_extension (s : string) : string :=
  match s with
  | EmptyString => EmptyString
  | String c r =>
      if ext_match s then EmptyString else String c (strip_extension r)
  end.

(** The class [[a-zA-Z0-9-_]]: after the range 0-9 the hyphen and the
    underscore are literal characters. *)
Definition safe_char (c : ascii) : bool :=
  Str.in_range 97 122 c || Str.in_range 65 90 c || Str.in_range 48 57 c
  || Ascii.eqb c "-" || Ascii.eqb c "_".

(** [.replace(/[^a-zA-Z0-9-_]/g, "_")]. *)
Definition replace_special (s : string) : string :=
  Str.map (fun c => if safe_char c then c else "_"%char) s.

Definition cleanFilename (filename : string) : string :=
  Str.take 50 (replace_special (strip_extension filename)).

(** ** JavaScript values *)

(** Numbers: the finite doubles the program computes with are exact
    rationals (its only arithmetic is the scaling by 1024, a power of two),
    plus NaN. *)
Inductive number : Type :=
| NaN
| Fin (q : Q).

Definition number_truthy (n : number) : bool :=
  match n with
  | NaN => false
  | Fin q => negb (Qeq_bool q 0%Q)
  end.

(** [a > b]: false as soon as one side is NaN. *)
Definition number_gt (a b : number) : bool :=
  match a, b with
  | Fin x, Fin y => negb (Qle_bool x y)
  | _, _ => false
  end.

Definition number_mul (a b : number) : number :=
  match a, b with
  | Fin x, Fin y => Fin (x * y)%Q
  | _, _ => NaN
  end.

Definition num (z : Z) : number := Fin (inject_Z z).

(** Built-in objects: those that a lookup through [Object.prototype] can
    return, and those that the [Object] function makes of an argument. *)
Inductive native : Type :=
| NObject                      (* the [Object] constructor *)
| NObjectPrototype             (* [Object.prototype] itself *)
| NFunction (name : string)    (* a method of [Object.prototype] *)
| NStringObject (s : string)   (* a String object, as [Object("s")] *)
| NNumberObject (n : number)   (* a Number object, as [Object(0)] *)
| NRegExp (source : string).   (* the object of a regular expression *)

(** Values: the primitives, plain objects as ordered lists of own data
    properties, the built-ins above, and functions of the caller: here
    the functions that return, or throw, one fixed value whatever they
    are called with ([name] and [source] are the function's name and
    text). *)
#[warnings="-register-all"]
Inductive value : Type :=
| VUndefined
| VNull
| VBool (b : bool)
| VNum (n : number)
| VStr (s : string)
| VObj (props : list (string * value))
| VNative (n : native)
| VFunction (name source : string) (throws : bool) (result : value).

(** The literal arguments of the method calls of the program. *)
Inductive literal : Type :=
| LStr (s : string)
| LNum (n : number)
| LRegExp (source : string).

(** ToBoolean. *)
Definition to_boolean (v : value) : bool :=
  match v with
  | VUndefined | VNull => false
  | VBool b => b
  | VNum n => number_truthy n
  | VStr s => negb (String.eqb s "")
  | VObj _ | VNative _ | VFunction _ _ _ _ => true
  end.

(** [a || b]. *)
Definition js_or (a b : value) : value :=
  if to_boolean a then a else b.

(** A default parameter [p = d] applies when the argument is undefined. *)
Definition default_param (v d : value) : value :=
  match v with
  | VUndefined => d
  | _ => v
  end.

Fixpoint assoc {A : Type} (k : string) (l : list (string * A)) : option A :=
  match l with
  | [] => None
  | (k', v) :: r => if String.eqb k k' then Some v else assoc k r
  end.

(** *** Property lookup through [Object.prototype]

    An object literal inherits from [Object.prototype], so [table[key]]
    finds the inherited properties when [key] is not an own property. *)
Definition object_prototype_methods : list string :=
  [ "toString"; "toLocaleString"; "valueOf"; "hasOwnProperty";
    "isPrototypeOf"; "propertyIsEnumerable"; "__defineGetter__";
    "__defineSetter__"; "__lookupGetter__"; "__lookupSetter__" ].

Definition object_prototype_get (k : string) : value :=
  if String.eqb k "constructor" then VNative NObject
  else if String.eqb k "__proto__" then VNative NObjectPrototype
  else if existsb (String.eqb k) object_prototype_methods
       then VNative (NFunction k)
  else VUndefined.

(** [table[key]] for one of the literal tables of the program. *)
Definition table_get (table : list (string * string)) (key : string) : value :=
  match assoc key table with
  | Some s => VStr s
  | None => object_prototype_get key
  end.

(** *** Errors *)

(** What the engine and the DOM throw: an Error or DOMException object,
    with its name and its message. *)
Record JsError : Type := mkJsError {
  err_name : string;
  err_message : string
}.

Definition error_value (e : JsError) : value :=
  VObj [("name", VStr (err_name e)); ("message", VStr (err_message e))].

(** [new Error(msg)]. *)
Definition new_Error (msg : string) : value :=
  error_value (mkJsError "Error" msg).

Inductive HostResult (A : Type) : Type :=
| HOk (a : A)
| HFail (e : JsError).
Arguments HOk {A} a.
Arguments HFail {A} e.

(** What the language leaves to the implementation. *)
Record Engine : Type := mkEngine {
  (** Number::toString *)
  number_to_string : number -> string;
  (** StringToNumber *)
  string_to_number : string -> number;
  (** text of a built-in function, of [Object.prototype] or of a regular
      expression converted to a string *)
  native_to_string : native -> string;
  (** wording of the TypeError raised for a faulty expression *)
  type_error_message : string -> string;
  (** the error raised when calls nest without end *)
  stack_overflow : JsError
}.

(** ** Browser objects and effects *)

(** A drawable surface: anything with a [toDataURL(type, quality)] method;
    the quality argument is optional. *)
Record Canvas : Type := mkCanvas {
  toDataURL : value -> option value -> HostResult string
}.

Inductive Blob : Type :=
| mkBlob (id : nat).

(** The [data] argument of [downloadFile]: a plain value, a canvas element
    or a blob. *)
Inductive Data : Type :=
| DVal (v : value)
| DCanvas (c : Canvas)
| DBlob (b : Blob).

Inductive DomOp : Type :=
| OpCreateElement | OpAppendChild | OpClick | OpRemoveChild | OpSetTimeout.

(** The capabilities of the page: blob construction, object URLs, and the
    DOM operations, each of which may fail with an exception. *)
Record Host : Type := mkHost {
  new_Blob : value -> value -> HostResult Blob;
  createObjectURL : Blob -> HostResult string;
  dom_failure : DomOp -> option JsError
}.

(** Observable effects, in program order. *)
Inductive Event : Type :=
| EEncode (type : value) (quality : option value)
| ENewBlob (part type : value)
| ECreateObjectURL (b : Blob)
| ECreateAnchor (href download : string)
| EAppendChild
| EClick
| ERemoveChild
| ESetTimeout (ms : nat) (revoke : string)
| EConsoleWarn (msg : string)
| EConsoleError (err : value).

(** ** Computations: a trace of events and a completion *)

Inductive Completion (A : Type) : Type :=
| Return (a : A)
| Throw (e : value).
Arguments Return {A} a.
Arguments Throw {A} e.

Definition M (A : Type) : Type := (list Event * Completion A)%type.

Definition ret {A} (a : A) : M A := ([], Return a).
Definition throw {A} (e : value) : M A := ([], Throw e).
Definition emit (ev : Event) : M unit := ([ev], Return tt).

Definition bind {A B} (m : M A) (f : A -> M B) : M B :=
  match m with
  | (t, Return a) => let (t', r) := f a in ((t ++ t')%list, r)
  | (t, Throw e) => (t, Throw e)
  end.

(** [try { m } catch (error) { h error }]. *)
Definition try_catch {A} (m : M A) (h : value -> M A) : M A :=
  match m with
  | (t, Throw e) => let (t', r) := h e in ((t ++ t')%list, r)
  | (t, Return a) => (t, Return a)
  end.

Definition of_host {A} (r : HostResult A) : M A :=
  match r with
  | HOk a => ret a
  | HFail e => throw (error_value e)
  end.

Declare Scope js_scope.
Delimit Scope js_scope with js.
Notation "x <- m ;; k" := (bind m (fun x => k))
  (at level 61, m at next level, right associativity) : js_scope.
Notation "m ;; k" := (bind m (fun _ => k))
  (at level 61, right associativity) : js_scope.
Local Open Scope js_scope.

Definition trace {A} (m : M A) : list Event := fst m.
Definition outcome {A} (m : M A) : Completion A := snd m.

(** ** The DownloadHelper class *)

(** The data properties the program reads. *)
Inductive property : Type :=
| p_size | p_type | p_name | p_message | p_quality.

Definition property_key (p : property) : string :=
  match p with
  | p_size => "size"
  | p_type => "type"
  | p_name => "name"
  | p_message => "message"
  | p_quality => "quality"
  end.

(** [v.p] for a value that is neither undefined nor null.  No primitive
    wrapper and no [Object.prototype] defines one of these five names; a
    function has a [name]. *)
Definition prop_of (v : value) (p : property) : value :=
  match v with
  | VObj props =>
      match assoc (property_key p) props with
      | Some x => x
      | None => VUndefined
      end
  | VNative NObject =>
      match p with p_name => VStr "Object" | _ => VUndefined end
  | VNative (NFunction f) =>
      match p with p_name => VStr f | _ => VUndefined end
  | VFunction name _ _ _ =>
      match p with p_name => VStr name | _ => VUndefined end
  | _ => VUndefined
  end.

(** The methods the program calls. *)
Inductive method : Type :=
| m_toLowerCase | m_replace | m_substring | m_includes | m_split | m_pop.

Definition method_key (m : method) : string :=
  match m with
  | m_toLowerCase => "toLowerCase"
  | m_replace => "replace"
  | m_substring => "substring"
  | m_includes => "includes"
  | m_split => "split"
  | m_pop => "pop"
  end.

Definition has_own (key : string) (props : list (string * value)) : bool :=
  match assoc key props with
  | Some _ => true
  | None => false
  end.

(** [object[key]] for an ordinary object: the own property, or what
    [Object.prototype] has under that key. *)
Definition object_get (props : list (string * value)) (key : string)
    : value :=
  match assoc key props with
  | Some v => v
  | None => object_prototype_get key
  end.

(** IsCallable. *)
Definition is_callable (v : value) : bool :=
  match v with
  | VFunction _ _ _ _ => true
  | VNative NObject => true
  | VNative (NFunction m) => existsb (String.eqb m) object_prototype_methods
  | _ => false
  end.

Definition is_primitive (v : value) : bool :=
  match v with
  | VObj _ | VNative _ | VFunction _ _ _ _ => false
  | _ => true
  end.

(** [Object(argument)]: a new empty object without argument, else the
    object made of the literal. *)
Definition Object_of (args : list literal) : value :=
  match args with
  | [] => VObj []
  | LStr s :: _ => VNative (NStringObject s)
  | LNum n :: _ => VNative (NNumberObject n)
  | LRegExp source :: _ => VNative (NRegExp source)
  end.

(** The two regular expression literals of cleanFilename. *)
Definition extension_pattern : literal := LRegExp "/\.[^/.]+$/".
Definition special_pattern : literal := LRegExp "/[^a-zA-Z0-9-_]/g".

(** The supportedFormats table built by the constructor (lines 5-13); no
    method reads it. *)
Definition supportedFormats : list (string * string) :=
  [ ("image/jpeg", "jpg"); ("image/png", "png"); ("image/webp", "webp");
    ("image/gif", "gif"); ("application/pdf", "pdf"); ("text/plain", "txt");
    ("application/json", "json") ].

(** The table of getFileExtension (lines 110-120). *)
Definition extensions : list (string * string) :=
  [ ("jpeg", "jpg"); ("jpg", "jpg"); ("png", "png"); ("webp", "webp");
    ("gif", "gif"); ("pdf", "pdf"); ("txt", "txt"); ("text", "txt");
    ("json", "json") ].

(** The table of getMimeType (lines 129-139). *)
Definition mimeTypes : list (string * string) :=
  [ ("jpeg", "image/jpeg"); ("jpg", "image/jpeg"); ("png", "image/png");
    ("webp", "image/webp"); ("gif", "image/gif"); ("pdf", "application/pdf");
    ("txt", "text/plain"); ("text", "text/plain");
    ("json", "application/json") ].

(** The four hints of getErrorSuggestion. *)
Definition security_hint : string :=
  "Please try a different image or check browser security settings.".
Definition format_hint : string :=
  "This format may not be supported by your browser. Try a different format.".
Definition size_hint : string :=
  "The file might be too large. Try a smaller image or lower quality.".
Definition generic_hint : string :=
  "Please try again or use a different file.".

(** Result of downloadFile: [{success: true, filename}] or
    [{success: false, error, suggestion}]. *)
Inductive DownloadResult : Type :=
| DSuccess (filename : string)
| DFailure (error : value) (suggestion : string).

Record FileInfo : Type := mkFileInfo {
  fi_name : value;
  fi_size : value;
  fi_type : value;
  fi_extension : value
}.

(** Result of validateFile: [{isValid, errors, fileInfo?}]. *)
Record ValidationResult : Type := mkValidationResult {
  isValid : bool;
  errors : list string;
  fileInfo : option FileInfo
}.

Section DownloadHelper.

Variable E : Engine.
Variable H : Host.

Definition throw_TypeError {A} (what : string) : M A :=
  throw (error_value (mkJsError "TypeError" (type_error_message E what))).

(** [v.p]: reading a property of undefined or null raises a TypeError. *)
Definition get (v : value) (p : property) : M value :=
  match v with
  | VUndefined | VNull =>
      throw_TypeError ("Cannot read properties of undefined or null (reading '"
                       ++ property_key p ++ "')")
  | _ => ret (prop_of v p)
  end.

(** ToPropertyKey of a literal argument, of no argument. *)
Definition literal_key (a : literal) : string :=
  match a with
  | LStr s => s
  | LNum n => number_to_string E n
  | LRegExp source => native_to_string E (NRegExp source)
  end.

Definition first_key (args : list literal) : string :=
  match args with
  | [] => "undefined"
  | a :: _ => literal_key a
  end.

(** A method of [Object.prototype] other than toLocaleString, called on
    the ordinary object with the own properties [props].  The second
    argument of a call of the program is never a function, which
    [__defineGetter__] and [__defineSetter__] ask for, and the first is
    never the key of an accessor, which [__lookupGetter__] and
    [__lookupSetter__] look for. *)
Definition call_prototype_method (props : list (string * value))
    (m : string) (args : list literal) : M value :=
  if String.eqb m "toString" then ret (VStr "[object Object]")
  else if String.eqb m "valueOf" then ret (VObj props)
  else if String.eqb m "hasOwnProperty"
          || String.eqb m "propertyIsEnumerable"
  then ret (VBool (has_own (first_key args) props))
  else if String.eqb m "isPrototypeOf" then ret (VBool false)
  else if String.eqb m "__lookupGetter__" || String.eqb m "__lookupSetter__"
  then ret VUndefined
  else if String.eqb m "__defineGetter__" || String.eqb m "__defineSetter__"
  then throw_TypeError "Object.prototype.__defineGetter__: Expecting function"
  else throw_TypeError (m ++ " is not a function").

(** [fn.call(object, ...args)] for the object with the own properties
    [props]; [toLocaleString] says what the built-in of that name does. *)
Definition call_function (props : list (string * value)) (fn : value)
    (args : list literal) (toLocaleString : M value) : M value :=
  match fn with
  | VFunction _ _ throws result => if throws then throw result else ret result
  | VNative NObject => ret (Object_of args)
  | VNative (NFunction m) =>
      if String.eqb m "toLocaleString" then toLocaleString
      else call_prototype_method props m args
  | _ => throw_TypeError "value is not a function"
  end.

(** [Object.prototype.toLocaleString] calls [this.toString()]; when that
    is toLocaleString again, the calls nest without end. *)
Definition call_toLocaleString (props : list (string * value)) : M value :=
  call_function props (object_get props "toString") []
    (throw (error_value (stack_overflow E))).

(** Calling [fn] as a method of the object with the own properties
    [props]. *)
Definition invoke (props : list (string * value)) (fn : value)
    (args : list literal) : M value :=
  call_function props fn args (call_toLocaleString props).

(** A call [v.method(...args)] where [v] is no string: the method is
    looked up on the value and called.  None of the six methods is a
    property of [Object.prototype], of a function, of a Number or Boolean
    or of a regular expression. *)
Definition call_method (m : method) (v : value) (args : list literal)
    : M value :=
  match v with
  | VUndefined | VNull =>
      throw_TypeError ("Cannot read properties of undefined or null (reading '"
                       ++ method_key m ++ "')")
  | VObj props =>
      match assoc (method_key m) props with
      | Some fn => invoke props fn args
      | None => throw_TypeError (method_key m ++ " is not a function")
      end
  | _ => throw_TypeError (method_key m ++ " is not a function")
  end.

(** A call [v.method(...args)] of a method of [String.prototype]: on a
    string, or a String object, it is the built-in [f]; on any other
    value it is whatever the value has under that name. *)
Definition string_method (m : method) (v : value) (args : list literal)
    (f : string -> value) : M value :=
  match v with
  | VStr s | VNative (NStringObject s) => ret (f s)
  | _ => call_method m v args
  end.

(** One step of OrdinaryToPrimitive: the conversion method under [key],
    if there is a callable one, and its result if that is a primitive. *)
Definition conversion (props : list (string * value)) (key : string)
    : M (option value) :=
  let fn := object_get props key in
  if is_callable fn
  then r <- invoke props fn [] ;;
       ret (if is_primitive r then Some r else None)
  else ret None.

(** OrdinaryToPrimitive of an ordinary object, the two conversion methods
    in the order of the hint. *)
Definition to_primitive (props : list (string * value))
    (first second : string) : M value :=
  r1 <- conversion props first ;;
  match r1 with
  | Some v => ret v
  | None =>
      r2 <- conversion props second ;;
      match r2 with
      | Some v => ret v
      | None => throw_TypeError "Cannot convert object to primitive value"
      end
  end.

(** ToString of a primitive. *)
Definition primitive_to_string (v : value) : string :=
  match v with
  | VUndefined => "undefined"
  | VNull => "null"
  | VBool b => if b then "true" else "false"
  | VNum n => number_to_string E n
  | VStr s => s
  | _ => EmptyString
  end.

(** ToNumber of a primitive. *)
Definition primitive_to_number (v : value) : number :=
  match v with
  | VNull => num 0
  | VBool b => if b then num 1 else num 0
  | VNum n => n
  | VStr s => string_to_number E s
  | _ => NaN
  end.

(** ToString, as a template literal, a property key and a DOM string
    argument apply it. *)
Definition to_string (v : value) : M string :=
  match v with
  | VUndefined => ret "undefined"
  | VNull => ret "null"
  | VBool b => ret (if b then "true" else "false")
  | VNum n => ret (number_to_string E n)
  | VStr s => ret s
  | VObj props =>
      p <- to_primitive props "toString" "valueOf" ;;
      ret (primitive_to_string p)
  | VNative (NStringObject s) => ret s
  | VNative (NNumberObject n) => ret (number_to_string E n)
  | VNative n => ret (native_to_string E n)
  | VFunction _ source _ _ => ret source
  end.

(** ToNumber, as a relational operator applies it to an operand compared
    with a number.  The text of a function or of a regular expression is
    never a numeric literal. *)
Definition to_number (v : value) : M number :=
  match v with
  | VUndefined => ret NaN
  | VNull => ret (num 0)
  | VBool b => ret (if b then num 1 else num 0)
  | VNum n => ret n
  | VStr s => ret (string_to_number E s)
  | VObj props =>
      p <- to_primitive props "valueOf" "toString" ;;
      ret (primitive_to_number p)
  | VNative (NStringObject s) => ret (string_to_number E s)
  | VNative (NNumberObject n) => ret n
  | VNative _ => ret NaN
  | VFunction _ _ _ _ => ret NaN
  end.

(** getFileExtension (lines 109-123). *)
Definition getFileExtension (format : value) : M value :=
  lowered <-
    string_method m_toLowerCase format []
      (fun s => VStr (Str.toLowerCase s)) ;;
  key <- to_string lowered ;;
  ret (js_or (table_get extensions key) (VStr "file")).

(** getMimeType (lines 128-142). *)
Definition getMimeType (format : value) : M value :=
  lowered <-
    string_method m_toLowerCase format []
      (fun s => VStr (Str.toLowerCase s)) ;;
  key <- to_string lowered ;;
  ret (js_or (table_get mimeTypes key) (VStr "application/octet-stream")).

(** cleanFilename (lines 147-152) on an arbitrary value: the three method
    calls, each on the result of the one before. *)
Definition cleanFilename_method (filename : value) : M value :=
  stem <-
    string_method m_replace filename [extension_pattern; LStr ""]
      (fun s => VStr (strip_extension s)) ;;
  safe <-
    string_method m_replace stem [special_pattern; LStr "_"]
      (fun s => VStr (replace_special s)) ;;
  string_method m_substring safe [LNum (num 0); LNum (num 50)]
    (fun s => VStr (Str.take 50 s)).

(** Lines 35-36 of downloadFile: the call of cleanFilename, and its result
    as the template literal of the download name renders it. *)
Definition call_cleanFilename (filename : value) : M string :=
  cleanName <- cleanFilename_method filename ;;
  to_string cleanName.

(** The branches of getErrorSuggestion on the lower-cased message. *)
Definition suggestion_for (errorMsg : string) : string :=
  if Str.includes "security" errorMsg || Str.includes "cross-origin" errorMsg
  then security_hint
  else if Str.includes "supported" errorMsg || Str.includes "format" errorMsg
  then format_hint
  else if Str.includes "size" errorMsg || Str.includes "large" errorMsg
  then size_hint
  else generic_hint.

(** [text.includes(pattern)] as a condition. *)
Definition includes_call (text : value) (pattern : string) : M bool :=
  found <-
    string_method m_includes text [LStr pattern]
      (fun s => VBool (Str.includes pattern s)) ;;
  ret (to_boolean found).

(** [a || b] as a condition: [b] is evaluated when [a] is falsy. *)
Definition either (a b : M bool) : M bool :=
  x <- a ;;
  if (x : bool) then ret true else b.

(** getErrorSuggestion (lines 157-169). *)
Definition getErrorSuggestion (error : value) : M string :=
  message <- get error p_message ;;
  errorMsg <-
    string_method m_toLowerCase message []
      (fun s => VStr (Str.toLowerCase s)) ;;
  security <-
    either (includes_call errorMsg "security")
      (includes_call errorMsg "cross-origin") ;;
  if (security : bool) then ret security_hint
  else
    format <-
      either (includes_call errorMsg "supported")
        (includes_call errorMsg "format") ;;
    if (format : bool) then ret format_hint
    else
      size <-
        either (includes_call errorMsg "size")
          (includes_call errorMsg "large") ;;
      if (size : bool) then ret size_hint else ret generic_hint.

(** One call of [canvas.toDataURL]; the type argument is a DOM string:
    the call converts it first. *)
Definition encode (canvas : Canvas) (type : value) (quality : option value)
    : M string :=
  to_string type ;;
  emit (EEncode type quality) ;;
  of_host (toDataURL canvas type quality).

(** [a === 'literal']. *)
Definition strict_eq_string (v : value) (s : string) : bool :=
  match v with
  | VStr x => String.eqb x s
  | _ => false
  end.

(** The catch block of canvasToDataURL (lines 96-103). *)
Definition canvasToDataURL_catch (canvas : Canvas) (mimeType quality : value)
    (error : value) : M string :=
  name <- get error p_name ;;
  fallback <-
    (if strict_eq_string name "SecurityError" then ret true
     else message <- get error p_message ;;
          includes_call message "supported") ;;
  if (fallback : bool) then
    text <- to_string mimeType ;;
    emit (EConsoleWarn ("Format " ++ text
                        ++ " not supported, falling back to JPEG")) ;;
    encode canvas (VStr "image/jpeg") (Some quality)
  else throw error.

(** canvasToDataURL (lines 86-104). *)
Definition canvasToDataURL (canvas : Canvas) (mimeType quality : value)
    : M string :=
  let quality := default_param quality (VNum (Fin (8 # 10)%Q)) in
  try_catch
    (if strict_eq_string mimeType "image/png"
     then encode canvas mimeType None
     else encode canvas mimeType (Some quality))
    (canvasToDataURL_catch canvas mimeType quality).

(** A DOM operation: it raises what the page makes it raise, or happens. *)
Definition dom (op : DomOp) (ev : Event) : M unit :=
  match dom_failure H op with
  | Some e => throw (error_value e)
  | None => emit ev
  end.

(** ToBoolean of the [data] argument: an element or a blob is an object. *)
Definition data_truthy (data : Data) : bool :=
  match data with
  | DVal v => to_boolean v
  | DCanvas _ | DBlob _ => true
  end.

(** [URL.createObjectURL(blob)]. *)
Definition object_url (b : Blob) : M string :=
  emit (ECreateObjectURL b) ;;
  of_host (createObjectURL H b).

(** Lines 52-53: wrap any other data in a new blob; the constructor
    converts the part and the type to strings. *)
Definition blob_url (part mimeType : value) : M string :=
  to_string part ;;
  to_string mimeType ;;
  emit (ENewBlob part mimeType) ;;
  blob <- of_host (new_Blob H part mimeType) ;;
  object_url blob.

(** Lines 38-54: turn [data] into something an anchor can point to. *)
Definition resolve_data (data : Data) (mimeType options : value) : M string :=
  match data with
  | DVal (VStr s) =>
      if Str.startsWith "data:" s then ret s
      else blob_url (VStr s) mimeType
  | DCanvas canvas =>
      q <- get options p_quality ;;
      canvasToDataURL canvas mimeType (js_or q (VNum (Fin (8 # 10)%Q)))
  | DBlob b => object_url b
  | DVal v => blob_url v mimeType
  end.

(** The try block of downloadFile (lines 25-71); it yields the download
    name. *)
Definition downloadFile_try (data : Data) (filename format options : value)
    : M string :=
  if negb (data_truthy data) || negb (to_boolean filename)
     || negb (to_boolean format)
  then throw (new_Error "Missing required parameters for download")
  else
    fileExtension <- getFileExtension format ;;
    mimeType <- getMimeType format ;;
    cleanName <- call_cleanFilename filename ;;
    extension <- to_string fileExtension ;;
    let downloadName := cleanName ++ "-converted." ++ extension in
    downloadData <- resolve_data data mimeType options ;;
    dom OpCreateElement (ECreateAnchor downloadData downloadName) ;;
    dom OpAppendChild EAppendChild ;;
    dom OpClick EClick ;;
    dom OpRemoveChild ERemoveChild ;;
    (if Str.startsWith "blob:" downloadData
     then dom OpSetTimeout (ESetTimeout 100 downloadData)
     else ret tt) ;;
    ret downloadName.

(** The catch block of downloadFile (lines 73-80). *)
Definition downloadFile_catch (error : value) : M DownloadResult :=
  emit (EConsoleError error) ;;
  message <- get error p_message ;;
  suggestion <- getErrorSuggestion error ;;
  ret (DFailure message suggestion).

(** downloadFile (lines 23-81).  The function is async: [Return r] is a
    promise fulfilled with [r], [Throw e] a promise rejected with [e]. *)
Definition downloadFile (data : Data) (filename format options : value)
    : M DownloadResult :=
  let options := default_param options (VObj []) in
  try_catch
    (name <- downloadFile_try data filename format options ;;
     ret (DSuccess name))
    downloadFile_catch.

(** [array.pop()] on the result of a split. *)
Definition pop (l : list string) : value :=
  match rev l with
  | x :: _ => VStr x
  | [] => VUndefined
  end.

Definition size_error (maxSizeMB : number) : string :=
  "File size must be less than " ++ number_to_string E maxSizeMB ++ "MB".

(** validateFile (lines 174-200); [maxSizeMB] is a number. *)
Definition validateFile (file : value) (maxSizeMB : number)
    : M ValidationResult :=
  if negb (to_boolean file)
  then ret (mkValidationResult false ["No file selected"] None)
  else
    size <- get file p_size ;;
    bytes <- to_number size ;;
    let limit := number_mul (number_mul maxSizeMB (num 1024)) (num 1024) in
    let errors1 :=
      if number_gt bytes limit then [size_error maxSizeMB] else [] in
    type <- get file p_type ;;
    let errors2 :=
      if negb (to_boolean type)
      then (errors1 ++ ["Unable to determine file type"])%list
      else errors1 in
    name <- get file p_name ;;
    last <-
      match name with
      | VStr s | VNative (NStringObject s) => ret (pop (Str.split "." s))
      | _ =>
          parts <- call_method m_split name [LStr "."] ;;
          call_method m_pop parts []
      end ;;
    extension <- getFileExtension last ;;
    ret (mkValidationResult (Nat.eqb (length errors2) 0) errors2
           (Some (mkFileInfo name size type extension))).

End DownloadHelper.

(** The default [maxSizeMB = 5]. *)
Definition validateFile_default (E : Engine) (file : value)
    : M ValidationResult :=
  validateFile E file (num 5).

(** ** Display helpers (formatFileSize, showStatus) *)

(** [a < b]: false as soon as one side is NaN. *)
Definition number_lt (a b : number) : bool :=
  match a, b with
  | Fin x, Fin y => negb (Qle_bool y x)
  | _, _ => false
  end.

(** [a / d] for a positive constant [d]. *)
Definition number_div (a : number) (d : positive) : number :=
  match a with
  | Fin x => Fin (x / inject_Z (Zpos d))%Q
  | NaN => NaN
  end.

(** The decimal digits of a natural number, "0" for zero. *)
Definition decimal (n : N) : string :=
  NilZero.string_of_uint (N.to_uint n).

(** toFixed(1), the choice of the integer: [n] with [n / 10] closest to
    [x]; of two such integers the larger one. *)
Definition tenths (x : Q) : Z := Qfloor (x * inject_Z 10 + (1 # 2))%Q.

(** toFixed(1), the digits: the decimal text of [n], padded with a zero to
    two characters, with a point before the last character. *)
Definition fixed1_digits (n : Z) : string :=
  let m := decimal (Z.to_N n) in
  let m := if Nat.leb (String.length m) 1 then "0" ++ m else m in
  let k := String.length m in
  substring 0 (k - 1) m ++ "." ++ substring (k - 1) 1 m.

(** The DOM element that showStatus updates: its text and its class
    tokens, in order. *)
Record Element : Type := mkElement {
  textContent : string;
  classList : list string
}.

(** ASCII whitespace, which a class token may not contain: tab, line
    feed, form feed, carriage return, space. *)
Definition is_whitespace (c : ascii) : bool :=
  existsb (Nat.eqb (Str.code c)) [9; 10; 12; 13; 32]%nat.

Fixpoint has_whitespace (s : string) : bool :=
  match s with
  | EmptyString => false
  | String c r => is_whitespace c || has_whitespace r
  end.

(** Appending to an ordered token set: a token already there stays where
    it is. *)
Definition add_token (token : string) (tokens : list string) : list string :=
  if existsb (String.eqb token) tokens then tokens
  else (tokens ++ [token])%list.

Section DisplayHelpers.

Variable E : Engine.

(** [x.toFixed(1)]: a number that is not finite, or is 10^21 or more,
    prints as ToString does; a negative one prints as its absolute value
    after a minus sign. *)
Definition toFixed1 (x : number) : string :=
  match x with
  | NaN => number_to_string E NaN
  | Fin q =>
      let sign := if Qle_bool 0 q then "" else "-" in
      let a := Qabs q in
      if Qle_bool (inject_Z (10 ^ 21)) a
      then sign ++ number_to_string E (Fin a)
      else sign ++ fixed1_digits (tenths a)
  end.

(** formatFileSize (lines 205-209); [bytes] is a number. *)
Definition formatFileSize (bytes : number) : string :=
  if number_lt bytes (num 1024) then number_to_string E bytes ++ " B"
  else if number_lt bytes (num 1048576)
  then toFixed1 (number_div bytes 1024) ++ " KB"
  else toFixed1 (number_div bytes 1048576) ++ " MB".

(** Wording of the DOMException raised for a class token with
    whitespace. *)
Variable token_error_message : string -> string.

(** [element.classList.add(type)] for a non-empty token. *)
Definition classList_add (el : Element) (type : string)
    : Element * Completion unit :=
  if has_whitespace type
  then (el, Throw (error_value
                     (mkJsError "InvalidCharacterError"
                        (token_error_message type))))
  else (mkElement (textContent el) (add_token type (classList el)),
        Return tt).

(** showStatus (lines 214-223), as a state transformer on the element;
    [None] is an absent (null or undefined) element; [message] and [type]
    are strings, the empty [type] being the default. *)
Definition showStatus (element : option Element) (message type : string)
    : option Element * Completion unit :=
  match element with
  | None => (None, Return tt)
  | Some el =>
      let el := mkElement message (classList el) in
      let el := mkElement (textContent el) ["status-message"] in
      if negb (String.eqb type "")
      then let (el', r) := classList_add el type in (Some el', r)
      else (Some el, Return tt)
  end.

End DisplayHelpers.

(** ** Notions used by the statements *)

(** The test of the catch block on an error object. *)
Definition is_fallback (e : JsError) : bool :=
  String.eqb (err_name e) "SecurityError"
  || Str.includes "supported" (err_message e).

(** The failure indicates a security restriction or an unsupported format:
    it is named SecurityError, or its message contains "supported". *)
Definition IndicatesFallback (e : JsError) : Prop :=
  err_name e = "SecurityError" \/ Str.Occurs "supported" (err_message e).

(** Does this encoder call fail in a way that triggers the JPEG retry? *)
Definition retried (c : Canvas) (type : value) (quality : option value)
    : bool :=
  match toDataURL c type quality with
  | HOk _ => false
  | HFail e => is_fallback e
  end.

(** The quality argument of the first encoder call. *)
Definition first_quality (mime : string) (quality : value) : option value :=
  if String.eqb mime "image/png" then None else Some quality.

Definition encode_calls (t : list Event) : nat :=
  List.length
    (filter (fun ev => match ev with EEncode _ _ => true | _ => false end) t).

Definition fallback_warning (mime : string) : Event :=
  EConsoleWarn ("Format " ++ mime ++ " not supported, falling back to JPEG").

(** Every exception the computation can raise is an Error object. *)
Definition throws_errors {A} (m : M A) : Prop :=
  forall e, outcome m = Throw e -> exists je, e = error_value je.

(** Data that is converted to a string, where it is, without running a
    method of the caller: anything but an ordinary object. *)
Definition typed_data (data : Data) : bool :=
  match data with
  | DVal (VObj _) => false
  | _ => true
  end.

(** Strings have the methods of String.prototype: of the six methods
    called, all but [pop]. *)
Definition string_has (m : method) : bool :=
  match m with
  | m_pop => false
  | _ => true
  end.

(** The value has nothing to call under the name of the method: it is
    undefined or null, or a primitive, a built-in or a function without
    such a method, or an ordinary object whose own property of that name
    is missing or is not callable. *)
Definition lacks_method (m : method) (v : value) : bool :=
  match v with
  | VStr _ | VNative (NStringObject _) => negb (string_has m)
  | VObj props =>
      match assoc (method_key m) props with
      | Some fn => negb (is_callable fn)
      | None => true
      end
  | _ => true
  end.

(** The event is an encoder call at quality 0. *)
Definition EncodesAtZero (ev : Event) : Prop :=
  exists type, ev = EEncode type (Some (VNum (Fin 0%Q))).

(** No encoder call of the run is at quality 0. *)
Definition never_at_zero {A} (m : M A) : Prop :=
  Forall (fun ev => ~ EncodesAtZero ev) (trace m).

(** The size is a number above [maxSizeMB * 1024 * 1024]. *)
Definition ExceedsLimit (bytes maxSizeMB : number) : Prop :=
  exists b m,
    bytes = Fin b /\ maxSizeMB = Fin m
    /\ (m * inject_Z 1024 * inject_Z 1024 < b)%Q.

(** The run has no effect. *)
Definition silent {A} (m : M A) : Prop := trace m = [].

(** Every event of the run satisfies [P]. *)
Definition trace_all {A} (P : Event -> Prop) (m : M A) : Prop :=
  Forall P (trace m).

(** A timer is set for 100 ms and revokes a URL of the blob scheme. *)
Definition timer_ok (ev : Event) : Prop :=
  match ev with
  | ESetTimeout ms url => ms = 100 /\ Str.startsWith "blob:" url = true
  | _ => True
  end.

(** The event is an operation on the page: a DOM operation or a timer. *)
Definition is_page_event (ev : Event) : bool :=
  match ev with
  | ECreateAnchor _ _ | EAppendChild | EClick | ERemoveChild
  | ESetTimeout _ _ => true
  | _ => false
  end.

(** The event is no operation on the page. *)
Definition off_page (ev : Event) : Prop := is_page_event ev = false.

(** The events of a triggered download, in order: the anchor with its
    target and name, its insertion, the click, its removal, and the
    revocation timer when the target is an object URL. *)
Definition download_events (href name : string) : list Event :=
  ([ECreateAnchor href name; EAppendChild; EClick; ERemoveChild]
   ++ (if Str.startsWith "blob:" href then [ESetTimeout 100 href] else []))
  %list.

(** The last segment of [name.split('.')]. *)
Definition last_segment (name : string) : string :=
  match rev (Str.split "." name) with
  | x :: _ => x
  | [] => EmptyString
  end.

(** Lines 57-71 of downloadFile as a computation of its own: the anchor
    is created, inserted, clicked and removed, and the object URL is
    handed to a timer. *)
Definition trigger_download (H : Host) (downloadData downloadName : string)
    : M string :=
  dom H OpCreateElement (ECreateAnchor downloadData downloadName) ;;
  dom H OpAppendChild EAppendChild ;;
  dom H OpClick EClick ;;
  dom H OpRemoveChild ERemoveChild ;;
  (if Str.startsWith "blob:" downloadData
   then dom H OpSetTimeout (ESetTimeout 100 downloadData)
   else ret tt) ;;
  ret downloadName.

(** ** Fixtures for the examples *)

Module Fixtures.

(** An engine in the style of V8.  Integers print and parse in decimal;
    the examples use no other number as text. *)
Definition engine : Engine :=
  {| number_to_string := fun n =>
       match n with
       | NaN => "NaN"
       | Fin q =>
           if Pos.eqb (Qden q) 1
           then DecimalString.NilZero.string_of_int (Z.to_int (Qnum q))
           else "NaN"
       end;
     string_to_number := fun s =>
       match s with
       | EmptyString => num 0
       | _ => match DecimalString.NilZero.int_of_string s with
              | Some i => num (Z.of_int i)
              | None => NaN
              end
       end;
     native_to_string := fun n =>
       match n with
       | NObject => "function Object() { [native code] }"
       | NObjectPrototype => "[object Object]"
       | NFunction f => "function " ++ f ++ "() { [native code] }"
       | NStringObject s => s
       | NNumberObject _ => "0"
       | NRegExp source => source
       end;
     type_error_message := fun what => what;
     stack_overflow :=
       mkJsError "RangeError" "Maximum call stack size exceeded" |}.

(** A page on which every operation succeeds; object URLs are numbered
    after their blob. *)
Definition page : Host :=
  {| new_Blob := fun _ _ => HOk (mkBlob 0);
     createObjectURL := fun _ => HOk "blob:https://tools.example/0";
     dom_failure := fun _ => None |}.

(** A canvas that encodes every type; the output names the type asked for
    and whether a quality was passed. *)
Definition canvas : Canvas :=
  {| toDataURL := fun type quality =>
       match type with
       | VStr "image/png" => HOk "data:image/png;base64,AAAA"
       | _ => HOk "data:image/jpeg;base64,BBBB"
       end |}.

(** A surface without a PNG encoder: PNG is refused with a message saying
    so, JPEG is encoded in a way that depends on the quality. *)
Definition jpeg_only_canvas : Canvas :=
  {| toDataURL := fun type quality =>
       match type with
       | VStr "image/png" =>
           HFail (mkJsError "NotSupportedError" "image/png is not supported")
       | _ =>
           match quality with
           | Some (VNum (Fin q)) =>
               if Qle_bool q (1 # 2)%Q
               then HOk "data:image/jpeg;base64,LOW"
               else HOk "data:image/jpeg;base64,HIGH"
           | _ => HOk "data:image/jpeg;base64,DEFAULT"
           end
       end |}.

(** A canvas tainted by cross-origin content: every export is refused. *)
Definition tainted_canvas : Canvas :=
  {| toDataURL := fun _ _ =>
       HFail (mkJsError "SecurityError"
                "Tainted canvases may not be exported.") |}.

End Fixtures.

(** ** Facts about strings *)

Module StrFacts.
Import Str.

Lemma startsWith_app (p b : string) : startsWith p (p ++ b) = true.
Proof.
  induction p as [|c p IH]; simpl; [reflexivity|].
  now rewrite Ascii.eqb_refl, IH.
Qed.

Lemma startsWith_spec (p s : string) :
  startsWith p s = true <-> exists b, s = p ++ b.
Proof.
  split.
  - revert s. induction p as [|c p IH]; intros s Hs.
    + now exists s.
    + destruct s as [|d s]; simpl in Hs; [discriminate|].
      apply andb_true_iff in Hs. destruct Hs as [Hc Hp].
      apply Ascii.eqb_eq in Hc. subst d.
      destruct (IH _ Hp) as [b ->]. now exists b.
  - intros [b ->]. apply startsWith_app.
Qed.

Lemma includes_app (a p b : string) : includes p (a ++ p ++ b) = true.
Proof.
  induction a as [|c a IH].
  - simpl. destruct (p ++ b) eqn:Hpb; simpl;
      rewrite <- ?Hpb, startsWith_app; reflexivity.
  - simpl. rewrite IH. apply orb_true_r.
Qed.

Lemma includes_spec (p s : string) :
  includes p s = true <-> Occurs p s.
Proof.
  split.
  - induction s as [|c s IH]; simpl; intros Hs.
    + rewrite orb_false_r in Hs. apply startsWith_spec in Hs.
      destruct Hs as [b Hb]. now exists EmptyString, b.
    + apply orb_true_iff in Hs. destruct Hs as [Hs|Hs].
      * apply startsWith_spec in Hs. destruct Hs as [b Hb].
        now exists EmptyString, b.
      * destruct (IH Hs) as (a & b & ->). now exists (String c a), b.
  - intros (a & b & ->). apply includes_app.
Qed.

Lemma includes_false (p s : string) :
  includes p s = false <-> ~ Occurs p s.
Proof.
  rewrite <- includes_spec. destruct (includes p s); split; intros;
    congruence.
Qed.

Lemma lower_char_idem (c : ascii) : lower_char (lower_char c) = lower_char c.
Proof.
  destruct c as [[] [] [] [] [] [] [] []]; reflexivity.
Qed.

Lemma toLowerCase_idem (s : string) :
  toLowerCase (toLowerCase s) = toLowerCase s.
Proof.
  induction s as [|c s IH]; simpl; [reflexivity|].
  now rewrite lower_char_idem, IH.
Qed.

Lemma take_length (n : nat) (s : string) : String.length (take n s) <= n.
Proof.
  revert s. induction n as [|n IH]; intros [|c s]; simpl; try lia.
  specialize (IH s). lia.
Qed.

Lemma all_take (f : ascii -> bool) (n : nat) (s : string) :
  all f s = true -> all f (take n s) = true.
Proof.
  revert s. induction n as [|n IH]; intros [|c s]; simpl; auto.
  intros Hs. apply andb_true_iff in Hs. destruct Hs as [-> Hs]. simpl. auto.
Qed.

Lemma all_app (f : ascii -> bool) (a b : string) :
  all f (a ++ b) = all f a && all f b.
Proof.
  induction a as [|c a IH]; simpl; [reflexivity|].
  now rewrite IH, andb_assoc.
Qed.

Lemma split_nonempty (sep : ascii) (s : string) : split sep s <> [].
Proof.
  induction s as [|c s IH]; simpl; [discriminate|].
  destruct (Ascii.eqb c sep); [discriminate|].
  destruct (split sep s); discriminate.
Qed.

End StrFacts.

(** ** Facts about computations *)

Lemma throws_errors_ret {A} (a : A) : throws_errors (ret a).
Proof. intros e He. discriminate He. Qed.

Lemma throws_errors_emit (ev : Event) : throws_errors (emit ev).
Proof. intros e He. discriminate He. Qed.

Lemma throws_errors_throw {A} (je : JsError) :
  throws_errors (@throw A (error_value je)).
Proof. intros e He. injection He as <-. now exists je. Qed.

Lemma throws_errors_of_host {A} (r : HostResult A) :
  throws_errors (of_host r).
Proof.
  destruct r; [apply throws_errors_ret | apply throws_errors_throw].
Qed.

Lemma throws_errors_bind {A B} (m : M A) (f : A -> M B) :
  throws_errors m -> (forall a, throws_errors (f a)) ->
  throws_errors (bind m f).
Proof.
  intros Hm Hf e. destruct m as [t [a|e']]; simpl.
  - specialize (Hf a). destruct (f a) as [t' r]. simpl. apply Hf.
  - intros He. injection He as <-. exact (Hm e' eq_refl).
Qed.

Lemma throws_errors_try_catch {A} (m : M A) (h : value -> M A) :
  throws_errors m -> (forall je, throws_errors (h (error_value je))) ->
  throws_errors (try_catch m h).
Proof.
  intros Hm Hh e. destruct m as [t [a|e']]; simpl.
  - discriminate.
  - destruct (Hm e' eq_refl) as [je ->].
    specialize (Hh je). destruct (h (error_value je)) as [t' r]. apply Hh.
Qed.

Lemma bind_Return_inv {A B} (m : M A) (f : A -> M B) (t : list Event)
    (b : B) :
  bind m f = (t, Return b) ->
  exists t1 a t2,
    m = (t1, Return a) /\ f a = (t2, Return b) /\ t = (t1 ++ t2)%list.
Proof.
  destruct m as [t1 [a|e]]; simpl; [|discriminate].
  destruct (f a) as [t2 r] eqn:Hf. intros Heq. injection Heq as <- ->.
  now exists t1, a, t2.
Qed.

Lemma bind_ret_l {A B} (a : A) (f : A -> M B) : bind (ret a) f = f a.
Proof. unfold bind, ret. now destruct (f a). Qed.

Lemma trace_bind_head {A B} (m : M A) (f : A -> M B) (ev : Event)
    (rest : list Event) :
  trace m = ev :: rest -> exists rest', trace (bind m f) = ev :: rest'.
Proof.
  destruct m as [t [a|e]]; simpl; intros ->.
  - destruct (f a) as [t' r]. simpl. eexists; reflexivity.
  - eexists; reflexivity.
Qed.

Lemma trace_try_catch_head {A} (m : M A) (h : value -> M A) (ev : Event)
    (rest : list Event) :
  trace m = ev :: rest -> exists rest', trace (try_catch m h) = ev :: rest'.
Proof.
  destruct m as [t [a|e]]; simpl; intros ->.
  - eexists; reflexivity.
  - destruct (h e) as [t' r]. simpl. eexists; reflexivity.
Qed.

Lemma never_at_zero_nil {A} (r : Completion A) : never_at_zero ([], r).
Proof. constructor. Qed.

Lemma never_at_zero_emit (ev : Event) :
  ~ EncodesAtZero ev -> never_at_zero (emit ev).
Proof. intros Hev. constructor; [exact Hev | constructor]. Qed.

Lemma never_at_zero_bind {A B} (m : M A) (f : A -> M B) :
  never_at_zero m -> (forall a, never_at_zero (f a)) ->
  never_at_zero (bind m f).
Proof.
  unfold never_at_zero. intros Hm Hf. destruct m as [t [a|e]]; simpl in *.
  - specialize (Hf a). destruct (f a) as [t' r]. simpl in *.
    apply Forall_app. now split.
  - exact Hm.
Qed.

Lemma never_at_zero_try_catch {A} (m : M A) (h : value -> M A) :
  never_at_zero m -> (forall e, never_at_zero (h e)) ->
  never_at_zero (try_catch m h).
Proof.
  unfold never_at_zero. intros Hm Hh. destruct m as [t [a|e]]; simpl in *.
  - exact Hm.
  - specialize (Hh e). destruct (h e) as [t' r]. simpl in *.
    apply Forall_app. now split.
Qed.

Lemma trace_all_nil {A} (P : Event -> Prop) (r : Completion A) :
  trace_all P ([], r).
Proof. constructor. Qed.

Lemma trace_all_emit (P : Event -> Prop) (ev : Event) :
  P ev -> trace_all P (emit ev).
Proof. intros Hev. constructor; [exact Hev | constructor]. Qed.

Lemma trace_all_bind {A B} (P : Event -> Prop) (m : M A) (f : A -> M B) :
  trace_all P m -> (forall a, trace_all P (f a)) -> trace_all P (bind m f).
Proof.
  unfold trace_all. intros Hm Hf. destruct m as [t [a|e]]; simpl in *.
  - specialize (Hf a). destruct (f a) as [t' r]. simpl in *.
    apply Forall_app. now split.
  - exact Hm.
Qed.

Lemma trace_all_try_catch {A} (P : Event -> Prop) (m : M A)
    (h : value -> M A) :
  trace_all P m -> (forall e, trace_all P (h e)) ->
  trace_all P (try_catch m h).
Proof.
  unfold trace_all. intros Hm Hh. destruct m as [t [a|e]]; simpl in *.
  - exact Hm.
  - specialize (Hh e). destruct (h e) as [t' r]. simpl in *.
    apply Forall_app. now split.
Qed.

Lemma trace_all_of_host {A} (P : Event -> Prop) (r : HostResult A) :
  trace_all P (of_host r).
Proof. destruct r; apply trace_all_nil. Qed.

Lemma silent_ret {A} (a : A) : silent (ret a).
Proof. reflexivity. Qed.

Lemma silent_throw {A} (e : value) : silent (@throw A e).
Proof. reflexivity. Qed.

Lemma silent_bind {A B} (m : M A) (f : A -> M B) :
  silent m -> (forall a, silent (f a)) -> silent (bind m f).
Proof.
  unfold silent. destruct m as [t [a|e]]; simpl; intros -> Hf.
  - specialize (Hf a). destruct (f a) as [t' r]. simpl in *. exact Hf.
  - reflexivity.
Qed.

Lemma silent_trace_all {A} (P : Event -> Prop) (m : M A) :
  silent m -> trace_all P m.
Proof. unfold silent, trace_all. intros ->. constructor. Qed.

Lemma silent_run {A} (m : M A) : silent m -> m = ([], outcome m).
Proof. destruct m as [t r]. unfold silent. simpl. now intros ->. Qed.

(** ** cleanFilename *)

Lemma safe_char_replace (c : ascii) :
  safe_char (if safe_char c then c else "_"%char) = true.
Proof.
  destruct (safe_char c) eqn:Hc; [exact Hc | reflexivity].
Qed.

Lemma replace_special_safe (s : string) :
  Str.all safe_char (replace_special s) = true.
Proof.
  unfold replace_special.
  induction s as [|c s IH]; simpl; [reflexivity|].
  rewrite safe_char_replace. exact IH.
Qed.

Lemma replace_special_length (s : string) :
  String.length (replace_special s) = String.length s.
Proof.
  unfold replace_special.
  induction s as [|c s IH]; simpl; congruence.
Qed.

(** A safe character is kept, any other becomes an underscore. *)
Lemma replace_special_char (c : ascii) (s : string) :
  replace_special (String c s) =
  String (if safe_char c then c else "_"%char) (replace_special s).
Proof. reflexivity. Qed.

Lemma ext_match_dot_inside (c : ascii) (a b : string) :
  ext_match (String c (a ++ String "." b)) = false.
Proof.
  unfold ext_match. destruct (Ascii.eqb c "."); [|reflexivity]. simpl.
  destruct (a ++ String "." b) eqn:Hab.
  - reflexivity.
  - rewrite <- Hab, StrFacts.all_app. simpl. apply andb_false_r.
Qed.

(** The regular expression removes exactly a last dot-suffix: with [ext]
    non-empty and free of '.' and '/', [stem.ext] is cut down to [stem]. *)
Lemma strip_extension_suffix (stem ext : string) :
  ext <> EmptyString ->
  Str.all ext_char ext = true ->
  strip_extension (stem ++ String "." ext) = stem.
Proof.
  intros Hne Hext. induction stem as [|c stem IH].
  - simpl. destruct ext; [congruence|]. now rewrite Hext.
  - change (String c stem ++ String "." ext)
      with (String c (stem ++ String "." ext)).
    cbn [strip_extension]. rewrite ext_match_dot_inside. now rewrite IH.
Qed.

(** Without a dot there is nothing to remove. *)
Lemma strip_extension_no_dot (s : string) :
  Str.all (fun c => negb (Ascii.eqb c ".")) s = true ->
  strip_extension s = s.
Proof.
  induction s as [|c s IH]; [reflexivity|].
  cbn [Str.all strip_extension]. intros Hs.
  apply andb_true_iff in Hs. destruct Hs as [Hc Hs].
  unfold ext_match. apply negb_true_iff in Hc. rewrite Hc. simpl.
  now rewrite IH.
Qed.

(** C3, as the code has it: cleanFilename("My File v2.2.jpg") is
    "My_File_v2_2".  Only the last extension (".jpg") is stripped, the dot
    of "v2.2" stays in the stem and is then replaced by '_' like the
    spaces; for every input, each character of the output is a letter, a
    digit, '-' or '_'. *)
Theorem cleanFilename_example :
  cleanFilename "My File v2.2.jpg" = "My_File_v2_2"
  /\ strip_extension "My File v2.2.jpg" = "My File v2.2"
  /\ replace_special "My File v2.2" = "My_File_v2_2"
  /\ forall s, Str.all safe_char (cleanFilename s) = true.
Proof.
  repeat split; try reflexivity.
  intros s. unfold cleanFilename.
  apply StrFacts.all_take, replace_special_safe.
Qed.

(** C3 as stated fails: the result is not "My_File_v2". *)
Lemma cleanFilename_example_not_v2 :
  cleanFilename "My File v2.2.jpg" <> "My_File_v2".
Proof. vm_compute. discriminate. Qed.

(** C10: cleanFilename is a total function of its input string; called as
    a method on a string it returns without raising and without any
    effect, and its output never has more than 50 characters. *)
Theorem cleanFilename_total_length (E : Engine) (s : string) :
  call_cleanFilename E (VStr s) = ([], Return (cleanFilename s))
  /\ String.length (cleanFilename s) <= 50.
Proof.
  split; [reflexivity|]. unfold cleanFilename. apply StrFacts.take_length.
Qed.

(** ** Calls and conversions have no effect *)

Section Silent.

Variable E : Engine.

Lemma silent_TypeError {A} (what : string) :
  silent (@throw_TypeError E A what).
Proof. reflexivity. Qed.

Lemma silent_get (v : value) (p : property) : silent (get E v p).
Proof. destruct v; reflexivity. Qed.

Lemma silent_call_prototype_method (props : list (string * value))
    (m : string) (args : list literal) :
  silent (call_prototype_method E props m args).
Proof.
  unfold call_prototype_method.
  repeat match goal with
         | |- context [if ?c then _ else _] => destruct c
         end; reflexivity.
Qed.

Lemma silent_call_function (props : list (string * value)) (fn : value)
    (args : list literal) (k : M value) :
  silent k -> silent (call_function E props fn args k).
Proof.
  intros Hk. unfold call_function.
  destruct fn as [| | | | | |n|name source throws result];
    try reflexivity.
  - destruct n; try reflexivity.
    destruct (String.eqb name "toLocaleString");
      [exact Hk | apply silent_call_prototype_method].
  - destruct throws; reflexivity.
Qed.

Lemma silent_invoke (props : list (string * value)) (fn : value)
    (args : list literal) :
  silent (invoke E props fn args).
Proof.
  apply silent_call_function. apply silent_call_function. reflexivity.
Qed.

Lemma silent_call_method (m : method) (v : value) (args : list literal) :
  silent (call_method E m v args).
Proof.
  destruct v; try reflexivity. simpl.
  destruct (assoc (method_key m) props);
    [apply silent_invoke | reflexivity].
Qed.

Lemma silent_string_method (m : method) (v : value) (args : list literal)
    (f : string -> value) :
  silent (string_method E m v args f).
Proof.
  destruct v; try apply silent_call_method; try reflexivity.
  destruct n; try apply silent_call_method; reflexivity.
Qed.

Lemma silent_conversion (props : list (string * value)) (key : string) :
  silent (conversion E props key).
Proof.
  unfold conversion. destruct (is_callable (object_get props key));
    [|reflexivity].
  apply silent_bind; [apply silent_invoke | reflexivity].
Qed.

Lemma silent_to_primitive (props : list (string * value))
    (first second : string) :
  silent (to_primitive E props first second).
Proof.
  apply silent_bind; [apply silent_conversion|]. intros [v|]; [reflexivity|].
  apply silent_bind; [apply silent_conversion|]. intros [v|]; reflexivity.
Qed.

Lemma silent_to_string (v : value) : silent (to_string E v).
Proof.
  destruct v; try reflexivity.
  - apply silent_bind; [apply silent_to_primitive | reflexivity].
  - destruct n; reflexivity.
Qed.

Lemma silent_to_number (v : value) : silent (to_number E v).
Proof.
  destruct v; try reflexivity.
  - apply silent_bind; [apply silent_to_primitive | reflexivity].
  - destruct n; reflexivity.
Qed.

Lemma silent_getFileExtension (format : value) :
  silent (getFileExtension E format).
Proof.
  apply silent_bind; [apply silent_string_method|]. intros lowered.
  apply silent_bind; [apply silent_to_string | reflexivity].
Qed.

Lemma silent_getMimeType (format : value) : silent (getMimeType E format).
Proof.
  apply silent_bind; [apply silent_string_method|]. intros lowered.
  apply silent_bind; [apply silent_to_string | reflexivity].
Qed.

Lemma silent_call_cleanFilename (filename : value) :
  silent (call_cleanFilename E filename).
Proof.
  apply silent_bind; [|intros; apply silent_to_string].
  apply silent_bind; [apply silent_string_method|]. intros stem.
  apply silent_bind; [apply silent_string_method|]. intros safe.
  apply silent_string_method.
Qed.

Lemma silent_includes_call (text : value) (pattern : string) :
  silent (includes_call E text pattern).
Proof. apply silent_bind; [apply silent_string_method | reflexivity]. Qed.

Lemma silent_either (a b : M bool) : silent a -> silent b -> silent (either a b).
Proof.
  intros Ha Hb. apply silent_bind; [exact Ha|]. intros [|];
    [reflexivity | exact Hb].
Qed.

Lemma silent_getErrorSuggestion (error : value) :
  silent (getErrorSuggestion E error).
Proof.
  apply silent_bind; [apply silent_get|]. intros message.
  apply silent_bind; [apply silent_string_method|]. intros errorMsg.
  apply silent_bind;
    [apply silent_either; apply silent_includes_call|].
  intros [|]; [reflexivity|].
  apply silent_bind;
    [apply silent_either; apply silent_includes_call|].
  intros [|]; [reflexivity|].
  apply silent_bind;
    [apply silent_either; apply silent_includes_call|].
  intros [|]; reflexivity.
Qed.

End Silent.

(** ** Calls of a missing method *)

Lemma not_prototype_method (m k : string) :
  existsb (String.eqb m) object_prototype_methods = false ->
  In k object_prototype_methods -> String.eqb m k = false.
Proof.
  intros Hm Hk. destruct (String.eqb m k) eqn:Heq; [|reflexivity].
  rewrite <- Hm. symmetry. apply existsb_exists. exists k. now split.
Qed.

Section MissingMethod.

Variable E : Engine.

(** Calling what is not callable raises a TypeError. *)
Lemma invoke_not_callable (props : list (string * value)) (fn : value)
    (args : list literal) :
  is_callable fn = false ->
  exists je,
    err_name je = "TypeError"
    /\ invoke E props fn args = ([], Throw (error_value je)).
Proof.
  intros Hfn. unfold invoke, call_function.
  destruct fn as [| | | | | |n|]; try discriminate Hfn;
    try (eexists (mkJsError _ _); split; reflexivity).
  destruct n as [| |m| | |]; try discriminate Hfn;
    try (eexists (mkJsError _ _); split; reflexivity).
  cbn [is_callable] in Hfn.
  pose proof (fun k => not_prototype_method m k Hfn) as Hk.
  unfold call_prototype_method.
  rewrite !Hk by (simpl; tauto). cbn [orb].
  eexists (mkJsError _ _); split; reflexivity.
Qed.

Lemma call_method_lacks (m : method) (v : value) (args : list literal) :
  lacks_method m v = true ->
  (forall s, v <> VStr s) ->
  exists je,
    err_name je = "TypeError"
    /\ call_method E m v args = ([], Throw (error_value je)).
Proof.
  intros Hlacks Hns.
  destruct v as [| | | |s|props|n|]; cbn [call_method];
    try (eexists (mkJsError _ _); split; reflexivity).
  cbn [lacks_method] in Hlacks.
  destruct (assoc (method_key m) props) as [fn|];
    [|eexists (mkJsError _ _); split; reflexivity].
  apply invoke_not_callable. now apply negb_true_iff.
Qed.

Lemma string_method_lacks (m : method) (v : value) (args : list literal)
    (f : string -> value) :
  string_has m = true ->
  lacks_method m v = true ->
  exists je,
    err_name je = "TypeError"
    /\ string_method E m v args f = ([], Throw (error_value je)).
Proof.
  intros Hm Hlacks.
  assert (Hns : forall s, v <> VStr s).
  { intros s ->. cbn [lacks_method] in Hlacks. now rewrite Hm in Hlacks. }
  destruct v as [| | | |s|props|n|];
    try exact (call_method_lacks m _ args Hlacks Hns).
  - exfalso. exact (Hns s eq_refl).
  - destruct n; try exact (call_method_lacks m _ args Hlacks Hns).
    cbn [lacks_method] in Hlacks. now rewrite Hm in Hlacks.
Qed.

End MissingMethod.

(** ** getErrorSuggestion *)

Section Suggestion.

Variable E : Engine.

Lemma getErrorSuggestion_message (error : value) (m : string) :
  prop_of error p_message = VStr m ->
  getErrorSuggestion E error
  = ([], Return (suggestion_for (Str.toLowerCase m))).
Proof.
  intros Hm.
  assert (Hget : get E error p_message = ret (VStr m)).
  { destruct error; try discriminate Hm; unfold get; now rewrite Hm. }
  unfold getErrorSuggestion. rewrite Hget, bind_ret_l.
  cbn [string_method]. rewrite bind_ret_l.
  unfold suggestion_for, either, includes_call. cbn [string_method].
  destruct (Str.includes "security" _), (Str.includes "cross-origin" _),
    (Str.includes "supported" _), (Str.includes "format" _),
    (Str.includes "size" _), (Str.includes "large" _); reflexivity.
Qed.

(** C7: on an error whose message is a string, getErrorSuggestion returns
    (no exception, no effect) the hint selected by the first rule that the
    lower-cased message satisfies: "security" or "cross-origin", then
    "supported" or "format", then "size" or "large", else the generic
    hint. *)
Theorem getErrorSuggestion_first_match (error : value) (m : string) :
  prop_of error p_message = VStr m ->
  exists hint,
    getErrorSuggestion E error = ([], Return hint) /\
    let l := Str.toLowerCase m in
    let security := Str.Occurs "security" l \/ Str.Occurs "cross-origin" l in
    let format := Str.Occurs "supported" l \/ Str.Occurs "format" l in
    let size := Str.Occurs "size" l \/ Str.Occurs "large" l in
    (security -> hint = security_hint) /\
    (~ security -> format -> hint = format_hint) /\
    (~ security -> ~ format -> size -> hint = size_hint) /\
    (~ security -> ~ format -> ~ size -> hint = generic_hint).
Proof.
  intros Hm. exists (suggestion_for (Str.toLowerCase m)).
  split; [now apply getErrorSuggestion_message|].
  cbv zeta. rewrite <- !StrFacts.includes_spec. unfold suggestion_for.
  destruct (Str.includes "security" _), (Str.includes "cross-origin" _),
    (Str.includes "supported" _), (Str.includes "format" _),
    (Str.includes "size" _), (Str.includes "large" _); simpl;
    repeat split; intros; try reflexivity;
    repeat match goal with
           | Hx : _ \/ _ |- _ => destruct Hx
           | Hx : ~ (_ \/ _) |- _ => exfalso; apply Hx; auto
           end; congruence.
Qed.

End Suggestion.

(** The example of C7: the message of "SecurityError: cross-origin" meets
    the first rule. *)
Lemma getErrorSuggestion_cross_origin :
  getErrorSuggestion Fixtures.engine
    (VObj [("message", VStr "SecurityError: cross-origin")])
  = ([], Return security_hint).
Proof.
  destruct (getErrorSuggestion_first_match Fixtures.engine
              (VObj [("message", VStr "SecurityError: cross-origin")])
              "SecurityError: cross-origin" eq_refl)
    as (hint & Heq & Hsecurity & _).
  rewrite Heq. rewrite Hsecurity; [reflexivity|].
  left. apply StrFacts.includes_spec. reflexivity.
Defined.

(** ** Format resolution *)

Section Formats.

Variable E : Engine.

(** On a string the two lookups raise nothing and have no effect. *)
Lemma getFileExtension_string (s : string) :
  getFileExtension E (VStr s)
  = ([], Return (js_or (table_get extensions (Str.toLowerCase s))
                   (VStr "file"))).
Proof. reflexivity. Qed.

Lemma getMimeType_string (s : string) :
  getMimeType E (VStr s)
  = ([], Return (js_or (table_get mimeTypes (Str.toLowerCase s))
                   (VStr "application/octet-stream"))).
Proof. reflexivity. Qed.

(** Case-insensitive: a token and its lower-case form resolve alike. *)
Lemma format_case_insensitive (s : string) :
  getFileExtension E (VStr s) = getFileExtension E (VStr (Str.toLowerCase s))
  /\ getMimeType E (VStr s) = getMimeType E (VStr (Str.toLowerCase s)).
Proof.
  rewrite !getFileExtension_string, !getMimeType_string.
  now rewrite StrFacts.toLowerCase_idem.
Qed.

(** No method name of [Object.prototype] is a lower-case string. *)
Lemma lower_not_method (s : string) :
  existsb (String.eqb (Str.toLowerCase s)) object_prototype_methods = false.
Proof.
  apply not_true_is_false. intros Hex.
  apply existsb_exists in Hex. destruct Hex as (m & Hin & Heq).
  apply String.eqb_eq in Heq.
  assert (Hm : Str.toLowerCase m = m).
  { rewrite <- Heq. apply StrFacts.toLowerCase_idem. }
  simpl in Hin.
  repeat (destruct Hin as [<- | Hin]; [vm_compute in Hm; discriminate|]).
  exact Hin.
Qed.

(** The recognised tokens and their fixed pairing. *)
Lemma recognised_pairing (s key ext mime : string) :
  In (key, ext, mime)
     [ ("jpeg", "jpg", "image/jpeg"); ("jpg", "jpg", "image/jpeg");
       ("png", "png", "image/png"); ("webp", "webp", "image/webp");
       ("gif", "gif", "image/gif"); ("pdf", "pdf", "application/pdf");
       ("txt", "txt", "text/plain"); ("text", "txt", "text/plain");
       ("json", "json", "application/json") ] ->
  Str.toLowerCase s = key ->
  getFileExtension E (VStr s) = ([], Return (VStr ext))
  /\ getMimeType E (VStr s) = ([], Return (VStr mime)).
Proof.
  intros Hin Hkey.
  rewrite getFileExtension_string, getMimeType_string, Hkey.
  simpl in Hin.
  repeat (destruct Hin as [Heq | Hin];
          [injection Heq as <- <- <-; split; reflexivity|]).
  contradiction.
Qed.

(** A token that is in neither table and does not lower-case to
    "constructor" or "__proto__" takes the defaults. *)
Lemma unrecognised_default (s : string) :
  assoc (Str.toLowerCase s) extensions = None ->
  Str.toLowerCase s <> "constructor" ->
  Str.toLowerCase s <> "__proto__" ->
  getFileExtension E (VStr s) = ([], Return (VStr "file"))
  /\ getMimeType E (VStr s)
     = ([], Return (VStr "application/octet-stream")).
Proof.
  intros Hnone Hc Hp.
  assert (Hmime : assoc (Str.toLowerCase s) mimeTypes = None).
  { revert Hnone. unfold extensions, mimeTypes. cbn [assoc].
    repeat match goal with
           | |- context [String.eqb ?a ?b] => destruct (String.eqb a b)
           end; congruence. }
  rewrite getFileExtension_string, getMimeType_string.
  unfold table_get. rewrite Hnone, Hmime. unfold object_prototype_get.
  apply String.eqb_neq in Hc, Hp. rewrite Hc, Hp, lower_not_method.
  split; reflexivity.
Qed.

(** C5 at the token "constructor" (and "__proto__"): the key is not an own
    property of the tables, the lookup goes on to [Object.prototype] and
    finds a truthy built-in, so the [||] default is not taken: neither
    lookup returns "file" or "application/octet-stream". *)
Theorem format_lookup_inherited :
  getFileExtension E (VStr "constructor") = ([], Return (VNative NObject))
  /\ getMimeType E (VStr "constructor") = ([], Return (VNative NObject))
  /\ getFileExtension E (VStr "__proto__")
     = ([], Return (VNative NObjectPrototype))
  /\ getMimeType E (VStr "__proto__")
     = ([], Return (VNative NObjectPrototype))
  /\ getFileExtension E (VStr "constructor") <> ([], Return (VStr "file"))
  /\ getMimeType E (VStr "constructor")
     <> ([], Return (VStr "application/octet-stream")).
Proof.
  repeat split; try reflexivity; intros Heq; discriminate Heq.
Qed.

End Formats.

(** ** canvasToDataURL *)

Lemma is_fallback_spec (e : JsError) :
  is_fallback e = true <-> IndicatesFallback e.
Proof.
  unfold is_fallback, IndicatesFallback.
  rewrite orb_true_iff, String.eqb_eq, StrFacts.includes_spec. reflexivity.
Qed.

Section CanvasExport.

Variable E : Engine.

Lemma canvasToDataURL_unfold (c : Canvas) (mime : string) (q : value) :
  canvasToDataURL E c (VStr mime) q
  = let quality := default_param q (VNum (Fin (8 # 10)%Q)) in
    try_catch (encode E c (VStr mime) (first_quality mime quality))
      (canvasToDataURL_catch E c (VStr mime) quality).
Proof.
  unfold canvasToDataURL, first_quality, strict_eq_string. cbv zeta.
  destruct (String.eqb mime "image/png"); reflexivity.
Qed.

Lemma canvasToDataURL_catch_error (c : Canvas) (mime : string)
    (quality : value) (e : JsError) :
  canvasToDataURL_catch E c (VStr mime) quality (error_value e)
  = if is_fallback e
    then ([fallback_warning mime;
           EEncode (VStr "image/jpeg") (Some quality)],
          outcome (of_host (toDataURL c (VStr "image/jpeg") (Some quality))))
    else ([], Throw (error_value e)).
Proof.
  unfold canvasToDataURL_catch, is_fallback, get, error_value, encode,
    fallback_warning.
  simpl.
  destruct (String.eqb (err_name e) "SecurityError"); simpl.
  - destruct (toDataURL c (VStr "image/jpeg") (Some quality)); reflexivity.
  - destruct (Str.includes "supported" (err_message e)); simpl;
      [|reflexivity].
    destruct (toDataURL c (VStr "image/jpeg") (Some quality)); reflexivity.
Qed.

(** A first attempt that succeeds is the only encoder call. *)
Lemma canvasToDataURL_ok (c : Canvas) (mime : string) (q : value)
    (url : string) :
  toDataURL c (VStr mime)
    (first_quality mime (default_param q (VNum (Fin (8 # 10)%Q)))) = HOk url ->
  canvasToDataURL E c (VStr mime) q
  = ([EEncode (VStr mime)
        (first_quality mime (default_param q (VNum (Fin (8 # 10)%Q))))],
     Return url).
Proof.
  intros Hok. rewrite canvasToDataURL_unfold. cbv zeta.
  unfold encode. simpl. now rewrite Hok.
Qed.

Lemma canvasToDataURL_failed (c : Canvas) (mime : string) (q : value)
    (e : JsError) :
  let quality := default_param q (VNum (Fin (8 # 10)%Q)) in
  toDataURL c (VStr mime) (first_quality mime quality) = HFail e ->
  canvasToDataURL E c (VStr mime) q
  = if is_fallback e
    then ([EEncode (VStr mime) (first_quality mime quality);
           fallback_warning mime;
           EEncode (VStr "image/jpeg") (Some quality)],
          outcome (of_host (toDataURL c (VStr "image/jpeg") (Some quality))))
    else ([EEncode (VStr mime) (first_quality mime quality)],
          Throw (error_value e)).
Proof.
  intros quality Hfail. rewrite canvasToDataURL_unfold. cbv zeta.
  fold quality. unfold encode. simpl. rewrite Hfail. simpl.
  rewrite canvasToDataURL_catch_error.
  destruct (is_fallback e); reflexivity.
Qed.

(** Whatever happens next, the first effect is the encoder call. *)
Lemma canvasToDataURL_first_call (c : Canvas) (mime : string) (q : value) :
  exists rest,
    trace (canvasToDataURL E c (VStr mime) q)
    = EEncode (VStr mime)
        (first_quality mime (default_param q (VNum (Fin (8 # 10)%Q))))
      :: rest.
Proof.
  destruct (toDataURL c (VStr mime)
              (first_quality mime (default_param q (VNum (Fin (8 # 10)%Q)))))
    as [url|e] eqn:Hfirst.
  - rewrite (canvasToDataURL_ok c mime q url Hfirst). now exists [].
  - rewrite (canvasToDataURL_failed c mime q e Hfirst).
    destruct (is_fallback e); eexists; reflexivity.
Qed.

(** C6: when the first encoder call fails with [e], the JPEG retry at the
    same quality is made, once, if and only if [e] indicates a security
    restriction or an unsupported format; its result, a data URL or its
    own failure, is the result of canvasToDataURL.  Any other [e] is
    thrown again after the single call. *)
Theorem canvasToDataURL_retry (c : Canvas) (mime : string) (q : value)
    (e : JsError) :
  let quality := default_param q (VNum (Fin (8 # 10)%Q)) in
  let first := EEncode (VStr mime) (first_quality mime quality) in
  let retry := EEncode (VStr "image/jpeg") (Some quality) in
  toDataURL c (VStr mime) (first_quality mime quality) = HFail e ->
  (IndicatesFallback e ->
     canvasToDataURL E c (VStr mime) q
     = ([first; fallback_warning mime; retry],
        match toDataURL c (VStr "image/jpeg") (Some quality) with
        | HOk url => Return url
        | HFail e' => Throw (error_value e')
        end))
  /\ (~ IndicatesFallback e ->
        canvasToDataURL E c (VStr mime) q = ([first], Throw (error_value e)))
  /\ (encode_calls (trace (canvasToDataURL E c (VStr mime) q)) = 2
      <-> IndicatesFallback e)
  /\ (encode_calls (trace (canvasToDataURL E c (VStr mime) q)) = 1
      <-> ~ IndicatesFallback e).
Proof.
  intros quality first retry Hfail.
  pose proof (canvasToDataURL_failed c mime q e Hfail) as Hrun.
  fold quality in Hrun. rewrite <- is_fallback_spec.
  destruct (is_fallback e) eqn:Hfb; rewrite Hrun.
  - repeat split; try congruence; try reflexivity.
    + intros _.
      destruct (toDataURL c (VStr "image/jpeg") (Some quality)); reflexivity.
    + simpl. discriminate.
  - repeat split; try congruence; try reflexivity.
    simpl. discriminate.
Qed.

(** C9, as the code has it: for PNG the first encoder call carries no
    quality, on every surface.  When that call does not trigger the JPEG
    retry the whole result is the same for any two quality arguments; when
    it does, the retry encodes JPEG at the quality given (0.8 when it is
    undefined) and its result is the result.  For any other type the first
    encoder call carries the quality argument (0.8 when it is
    undefined). *)
Theorem canvasToDataURL_png_quality (c : Canvas) (q1 q2 : value) :
  (exists rest,
      trace (canvasToDataURL E c (VStr "image/png") q1)
      = EEncode (VStr "image/png") None :: rest)
  /\ (retried c (VStr "image/png") None = false ->
      canvasToDataURL E c (VStr "image/png") q1
      = canvasToDataURL E c (VStr "image/png") q2)
  /\ (retried c (VStr "image/png") None = true ->
      let quality := default_param q1 (VNum (Fin (8 # 10)%Q)) in
      canvasToDataURL E c (VStr "image/png") q1
      = ([EEncode (VStr "image/png") None; fallback_warning "image/png";
          EEncode (VStr "image/jpeg") (Some quality)],
         match toDataURL c (VStr "image/jpeg") (Some quality) with
         | HOk url => Return url
         | HFail e => Throw (error_value e)
         end))
  /\ forall (mime : string) (q : value),
       mime <> "image/png" ->
       exists rest,
         trace (canvasToDataURL E c (VStr mime) q)
         = EEncode (VStr mime)
             (Some (default_param q (VNum (Fin (8 # 10)%Q)))) :: rest.
Proof.
  split; [exact (canvasToDataURL_first_call c "image/png" q1)|].
  split; [|split].
  - intros Hnot. unfold retried in Hnot.
    assert (Hpng : forall q,
               canvasToDataURL E c (VStr "image/png") q
               = ([EEncode (VStr "image/png") None],
                  outcome (of_host (toDataURL c (VStr "image/png") None)))).
    { intros q. destruct (toDataURL c (VStr "image/png") None) eqn:Hfirst.
      - now rewrite (canvasToDataURL_ok c "image/png" q a).
      - rewrite (canvasToDataURL_failed c "image/png" q e Hfirst).
        now rewrite Hnot. }
    now rewrite !Hpng.
  - intros Hretried quality. unfold retried in Hretried.
    destruct (toDataURL c (VStr "image/png") None) as [url|e] eqn:Hfirst;
      [discriminate Hretried|].
    rewrite (canvasToDataURL_failed c "image/png" q1 e Hfirst).
    rewrite Hretried. fold quality.
    destruct (toDataURL c (VStr "image/jpeg") (Some quality)); reflexivity.
  - intros mime q Hmime. apply String.eqb_neq in Hmime.
    destruct (canvasToDataURL_first_call c mime q) as [rest Hrest].
    exists rest. rewrite Hrest. unfold first_quality. now rewrite Hmime.
Qed.

End CanvasExport.

(** C6 at a tainted canvas asked for WEBP at quality 0.5. *)
Lemma canvasToDataURL_retry_tainted :
  encode_calls
    (trace (canvasToDataURL Fixtures.engine Fixtures.tainted_canvas
              (VStr "image/webp") (VNum (Fin (1 # 2)%Q)))) = 2.
Proof.
  apply (canvasToDataURL_retry Fixtures.engine Fixtures.tainted_canvas
           "image/webp" (VNum (Fin (1 # 2)%Q))
           (mkJsError "SecurityError" "Tainted canvases may not be exported.")
           eq_refl).
  left. reflexivity.
Defined.

(** C9 at a canvas that encodes PNG. *)
Lemma canvasToDataURL_png_quality_canvas :
  canvasToDataURL Fixtures.engine Fixtures.canvas (VStr "image/png")
    (VNum (Fin (3 # 10)%Q))
  = canvasToDataURL Fixtures.engine Fixtures.canvas (VStr "image/png")
      (VNum (Fin (9 # 10)%Q)).
Proof.
  apply (proj1 (proj2 (canvasToDataURL_png_quality Fixtures.engine
                         Fixtures.canvas
                         (VNum (Fin (3 # 10)%Q)) (VNum (Fin (9 # 10)%Q))))).
  reflexivity.
Defined.

(** C9 as stated fails on a surface that refuses PNG as unsupported: the
    retry encodes JPEG at the quality given, and the two outputs differ. *)
Lemma canvasToDataURL_png_quality_differs :
  outcome (canvasToDataURL Fixtures.engine Fixtures.jpeg_only_canvas
             (VStr "image/png") (VNum (Fin (3 # 10)%Q)))
  <> outcome (canvasToDataURL Fixtures.engine Fixtures.jpeg_only_canvas
                (VStr "image/png") (VNum (Fin (9 # 10)%Q))).
Proof. vm_compute. discriminate. Qed.

Create HintDb throws.
#[local] Hint Resolve throws_errors_ret throws_errors_emit
  throws_errors_throw throws_errors_of_host : throws.

Lemma data_not_blob (s : string) :
  Str.startsWith "data:" s = true -> Str.startsWith "blob:" s = false.
Proof.
  destruct s as [|c s]; [discriminate|]. cbn [Str.startsWith].
  intros Hd. apply andb_true_iff in Hd. destruct Hd as [Hd _].
  apply Ascii.eqb_eq in Hd. subst c. reflexivity.
Qed.

Lemma to_boolean_VStr (s : string) :
  s <> EmptyString -> to_boolean (VStr s) = true.
Proof.
  intros Hs. simpl. apply negb_true_iff. now apply String.eqb_neq.
Qed.

Section TryBlock.

Variable E : Engine.
Variable H : Host.

(** The extension found for a string token always has a text. *)
Lemma extension_text (key : string) :
  exists ext,
    to_string E (js_or (table_get extensions key) (VStr "file"))
    = ([], Return ext).
Proof.
  unfold table_get. destruct (assoc key extensions) as [s|].
  - unfold js_or. destruct (to_boolean (VStr s)); eexists; reflexivity.
  - unfold object_prototype_get.
    repeat match goal with
           | |- context [if ?c then _ else _] => destruct c
           end; eexists; reflexivity.
Qed.

Lemma downloadFile_try_unfold (data : Data)
    (filename format options : value) :
  downloadFile_try E H data filename format options
  = if negb (data_truthy data) || negb (to_boolean filename)
       || negb (to_boolean format)
    then throw (new_Error "Missing required parameters for download")
    else
      fileExtension <- getFileExtension E format ;;
      mimeType <- getMimeType E format ;;
      cleanName <- call_cleanFilename E filename ;;
      extension <- to_string E fileExtension ;;
      downloadData <- resolve_data E H data mimeType options ;;
      trigger_download H downloadData
        (cleanName ++ "-converted." ++ extension).
Proof. reflexivity. Qed.

(** With a string name and a string token the try block is the
    resolution of the data followed by the download. *)
Lemma downloadFile_try_strings (data : Data) (fn f : string)
    (options : value) :
  data_truthy data = true -> fn <> EmptyString -> f <> EmptyString ->
  downloadFile_try E H data (VStr fn) (VStr f) options
  = (extension <-
       to_string E (js_or (table_get extensions (Str.toLowerCase f))
                      (VStr "file")) ;;
     downloadData <-
       resolve_data E H data
         (js_or (table_get mimeTypes (Str.toLowerCase f))
            (VStr "application/octet-stream")) options ;;
     trigger_download H downloadData
       (cleanFilename fn ++ "-converted." ++ extension)).
Proof.
  intros Hdata Hfn Hf. rewrite downloadFile_try_unfold.
  rewrite Hdata, (to_boolean_VStr fn Hfn), (to_boolean_VStr f Hf).
  cbn [negb orb].
  change (getFileExtension E (VStr f))
    with (ret (js_or (table_get extensions (Str.toLowerCase f))
                 (VStr "file"))).
  rewrite bind_ret_l.
  change (getMimeType E (VStr f))
    with (ret (js_or (table_get mimeTypes (Str.toLowerCase f))
                 (VStr "application/octet-stream"))).
  rewrite bind_ret_l.
  change (call_cleanFilename E (VStr fn)) with (ret (cleanFilename fn)).
  rewrite bind_ret_l. reflexivity.
Qed.

(** On a page whose DOM operations succeed the download is the five
    events in order. *)
Lemma trigger_download_ok (href name : string) :
  (forall op, dom_failure H op = None) ->
  trigger_download H href name = (download_events href name, Return name).
Proof.
  intros Hok. unfold trigger_download, download_events, dom.
  rewrite !Hok. destruct (Str.startsWith "blob:" href); reflexivity.
Qed.


Lemma throws_errors_TypeError {A} (what : string) :
  throws_errors (@throw_TypeError E A what).
Proof. apply throws_errors_throw. Qed.

Lemma throws_errors_get (v : value) (p : property) :
  throws_errors (get E v p).
Proof.
  destruct v; simpl; auto using throws_errors_TypeError with throws.
Qed.

(** A value that is no ordinary object is converted to a string without
    any call. *)
Lemma to_string_returns (v : value) :
  (forall props, v <> VObj props) ->
  exists text, to_string E v = ([], Return text).
Proof.
  intros Hv. destruct v as [| | | | |props|n|name source throws result];
    try (eexists; reflexivity).
  - exfalso. exact (Hv props eq_refl).
  - destruct n; eexists; reflexivity.
Qed.

Lemma throws_errors_to_string (v : value) :
  (forall props, v <> VObj props) -> throws_errors (to_string E v).
Proof.
  intros Hv. destruct (to_string_returns v Hv) as [text ->].
  apply throws_errors_ret.
Qed.

(** What a table lookup with its default gives is a string or a
    built-in. *)
Lemma table_value_not_object (table : list (string * string))
    (key d : string) (props : list (string * value)) :
  js_or (table_get table key) (VStr d) <> VObj props.
Proof.
  unfold table_get. destruct (assoc key table) as [s|].
  - unfold js_or. destruct (to_boolean (VStr s)); discriminate.
  - unfold object_prototype_get.
    repeat match goal with
           | |- context [if ?c then _ else _] => destruct c
           end; discriminate.
Qed.

Lemma throws_errors_encode (c : Canvas) (type : value)
    (quality : option value) :
  (forall props, type <> VObj props) ->
  throws_errors (encode E c type quality).
Proof.
  intros Htype. unfold encode.
  apply throws_errors_bind; [now apply throws_errors_to_string|]. intros _.
  apply throws_errors_bind; auto with throws.
Qed.

(** The catch block of canvasToDataURL on an error object. *)
Lemma canvasToDataURL_catch_run (c : Canvas) (mimeType quality : value)
    (je : JsError) :
  canvasToDataURL_catch E c mimeType quality (error_value je)
  = if is_fallback je
    then (text <- to_string E mimeType ;;
          emit (EConsoleWarn ("Format " ++ text
                              ++ " not supported, falling back to JPEG")) ;;
          encode E c (VStr "image/jpeg") (Some quality))%js
    else throw (error_value je).
Proof.
  unfold canvasToDataURL_catch, is_fallback.
  change (get E (error_value je) p_name) with (ret (VStr (err_name je))).
  rewrite bind_ret_l. cbn [strict_eq_string].
  destruct (String.eqb (err_name je) "SecurityError").
  - rewrite bind_ret_l. reflexivity.
  - change (get E (error_value je) p_message)
      with (ret (VStr (err_message je))).
    rewrite bind_ret_l.
    change (includes_call E (VStr (err_message je)) "supported")
      with (ret (Str.includes "supported" (err_message je))).
    rewrite bind_ret_l. reflexivity.
Qed.

Lemma throws_errors_canvasToDataURL (c : Canvas) (mimeType quality : value) :
  (forall props, mimeType <> VObj props) ->
  throws_errors (canvasToDataURL E c mimeType quality).
Proof.
  intros Hmime. apply throws_errors_try_catch.
  - destruct (strict_eq_string mimeType "image/png");
      now apply throws_errors_encode.
  - intros je. rewrite canvasToDataURL_catch_run.
    destruct (is_fallback je); [|apply throws_errors_throw].
    apply throws_errors_bind; [now apply throws_errors_to_string|]. intros.
    apply throws_errors_bind; [apply throws_errors_emit|]. intros.
    apply throws_errors_encode. discriminate.
Qed.

Lemma throws_errors_dom (op : DomOp) (ev : Event) :
  throws_errors (dom H op ev).
Proof. unfold dom. destruct (dom_failure H op); auto with throws. Qed.

Lemma throws_errors_object_url (b : Blob) : throws_errors (object_url H b).
Proof. apply throws_errors_bind; auto with throws. Qed.

Lemma throws_errors_blob_url (part mimeType : value) :
  (forall props, part <> VObj props) ->
  (forall props, mimeType <> VObj props) ->
  throws_errors (blob_url E H part mimeType).
Proof.
  intros Hpart Hmime. unfold blob_url.
  apply throws_errors_bind; [now apply throws_errors_to_string|]. intros _.
  apply throws_errors_bind; [now apply throws_errors_to_string|]. intros _.
  apply throws_errors_bind; auto with throws. intros _.
  apply throws_errors_bind; auto using throws_errors_object_url with throws.
Qed.

Lemma throws_errors_resolve_data (data : Data) (mimeType options : value) :
  typed_data data = true ->
  (forall props, mimeType <> VObj props) ->
  throws_errors (resolve_data E H data mimeType options).
Proof.
  intros Hdata Hmime. destruct data as [v|c|b]; cbn [resolve_data].
  - destruct v; try discriminate Hdata;
      try (apply throws_errors_blob_url; [discriminate | exact Hmime]).
    destruct (Str.startsWith "data:" s);
      [apply throws_errors_ret
      | apply throws_errors_blob_url; [discriminate | exact Hmime]].
  - apply throws_errors_bind; [apply throws_errors_get|]. intros q.
    now apply throws_errors_canvasToDataURL.
  - apply throws_errors_object_url.
Qed.

Lemma throws_errors_trigger_download (href name : string) :
  throws_errors (trigger_download H href name).
Proof.
  unfold trigger_download.
  repeat (apply throws_errors_bind; [apply throws_errors_dom|]; intros).
  apply throws_errors_bind; [|intros; apply throws_errors_ret].
  destruct (Str.startsWith "blob:" _);
    [apply throws_errors_dom | apply throws_errors_ret].
Qed.

(** With a string name, a string token and data that is no ordinary
    object, whatever the try block throws is an error object. *)
Lemma throws_errors_downloadFile_try (data : Data) (fn f : string)
    (options : value) :
  typed_data data = true ->
  throws_errors (downloadFile_try E H data (VStr fn) (VStr f) options).
Proof.
  intros Hdata. rewrite downloadFile_try_unfold.
  destruct (negb (data_truthy data) || negb (to_boolean (VStr fn))
            || negb (to_boolean (VStr f))) eqn:Hguard;
    [apply throws_errors_throw|].
  change (getFileExtension E (VStr f))
    with (ret (js_or (table_get extensions (Str.toLowerCase f))
                 (VStr "file"))).
  rewrite bind_ret_l.
  change (getMimeType E (VStr f))
    with (ret (js_or (table_get mimeTypes (Str.toLowerCase f))
                 (VStr "application/octet-stream"))).
  rewrite bind_ret_l.
  change (call_cleanFilename E (VStr fn)) with (ret (cleanFilename fn)).
  rewrite bind_ret_l.
  apply throws_errors_bind.
  { apply throws_errors_to_string. apply table_value_not_object. }
  intros extension. apply throws_errors_bind.
  { apply throws_errors_resolve_data; [exact Hdata|].
    apply table_value_not_object. }
  intros href. apply throws_errors_trigger_download.
Qed.

(** On an error with a string message the catch block of downloadFile
    raises nothing. *)
Lemma downloadFile_catch_message (error : value) (m : string) :
  prop_of error p_message = VStr m ->
  downloadFile_catch E error
  = ([EConsoleError error],
     Return (DFailure (VStr m) (suggestion_for (Str.toLowerCase m)))).
Proof.
  intros Hm. unfold downloadFile_catch.
  assert (Hget : get E error p_message = ret (VStr m)).
  { destruct error; try discriminate Hm; unfold get; now rewrite Hm. }
  rewrite Hget, (getErrorSuggestion_message E error m Hm). reflexivity.
Qed.

Lemma downloadFile_catch_error (je : JsError) :
  downloadFile_catch E (error_value je)
  = ([EConsoleError (error_value je)],
     Return (DFailure (VStr (err_message je))
               (suggestion_for (Str.toLowerCase (err_message je))))).
Proof. now apply downloadFile_catch_message. Qed.

(** A try block that returns has clicked the anchor. *)
Lemma downloadFile_try_clicks (data : Data) (filename format options : value)
    (t : list Event) (name : string) :
  downloadFile_try E H data filename format options = (t, Return name) ->
  In EClick t.
Proof.
  unfold downloadFile_try.
  destruct (negb (data_truthy data) || negb (to_boolean filename)
            || negb (to_boolean format)); [discriminate|].
  intros Hrun.
  repeat match type of Hrun with
         | bind _ _ = (_, Return _) =>
             apply bind_Return_inv in Hrun;
             let t1 := fresh "t" in
             let a := fresh "a" in
             let Hm := fresh "Hm" in
             destruct Hrun as (t1 & a & ? & Hm & Hrun & ->)
         end.
  match goal with
  | Hc : dom H OpClick EClick = _ |- _ =>
      unfold dom in Hc; destruct (dom_failure H OpClick); [discriminate|];
      injection Hc as <-
  end.
  repeat (apply in_or_app; first [left; now left | right]).
Qed.

End TryBlock.

(** ** downloadFile *)

Section Download.

Variable E : Engine.
Variable H : Host.

(** C1: when the name and the format token are strings and the data is
    no ordinary object, or more generally whenever whatever the try block
    throws carries a string message, downloadFile does not throw (its
    promise is not rejected).  Either the try block returns the download
    name, the anchor has been clicked and the result is
    [{success: true, filename}]; or the try block threw a value with a
    string message, which is logged, and the result is
    [{success: false, error, suggestion}] with that message and the
    string that getErrorSuggestion returns for the value thrown. *)
Theorem downloadFile_never_throws (data : Data)
    (filename format options : value) :
  let attempt :=
    downloadFile_try E H data filename format
      (default_param options (VObj [])) in
  ((exists fn f, filename = VStr fn /\ format = VStr f)
   /\ typed_data data = true)
  \/ (forall t e, attempt = (t, Throw e) ->
      exists m, prop_of e p_message = VStr m) ->
  (exists t name,
      attempt = (t, Return name)
      /\ In EClick t
      /\ downloadFile E H data filename format options
         = (t, Return (DSuccess name)))
  \/ (exists t e m suggestion,
         attempt = (t, Throw e)
         /\ prop_of e p_message = VStr m
         /\ getErrorSuggestion E e = ([], Return suggestion)
         /\ downloadFile E H data filename format options
            = ((t ++ [EConsoleError e])%list,
               Return (DFailure (VStr m) suggestion))).
Proof.
  intros attempt Hin.
  assert (Herr : forall t e, attempt = (t, Throw e) ->
                 exists m, prop_of e p_message = VStr m).
  { destruct Hin as [[(fn & f & -> & ->) Hdata]|Hgen]; [|exact Hgen].
    intros t e Hrun.
    destruct (throws_errors_downloadFile_try E H data fn f
                (default_param options (VObj [])) Hdata e) as [je ->].
    - fold attempt. now rewrite Hrun.
    - now exists (err_message je). }
  unfold downloadFile. fold attempt.
  destruct attempt as [t [name|e]] eqn:Hrun.
  - left. exists t, name. split; [|split].
    + reflexivity.
    + eapply downloadFile_try_clicks. exact Hrun.
    + simpl. now rewrite app_nil_r.
  - right. destruct (Herr t e eq_refl) as [m Hm].
    exists t, e, m, (suggestion_for (Str.toLowerCase m)).
    split; [|split; [|split]].
    + reflexivity.
    + exact Hm.
    + now apply getErrorSuggestion_message.
    + cbn [bind try_catch]. now rewrite (downloadFile_catch_message E e m Hm).
Qed.

(** The example of the specification: no data. *)
Example downloadFile_missing_data :
  outcome (downloadFile E H (DVal VNull) (VStr "a") (VStr "png") VUndefined)
  = Return (DFailure (VStr "Missing required parameters for download")
              generic_hint).
Proof. reflexivity. Qed.

Lemma default_param_js_or (q d : value) :
  d <> VUndefined -> default_param (js_or q d) d = js_or q d.
Proof.
  intros Hd. unfold js_or. destruct (to_boolean q) eqn:Hq.
  - destruct q; simpl in *; try reflexivity; discriminate.
  - destruct d; simpl; congruence.
Qed.

(** With a canvas, the JPEG format and the option [{quality: q}], the run
    is that of canvasToDataURL at the quality [q || 0.8], followed by the
    anchor. *)
Lemma downloadFile_try_canvas_jpeg (c : Canvas) (q : value) :
  downloadFile_try E H (DCanvas c) (VStr "photo.png") (VStr "jpeg")
    (VObj [("quality", q)])
  = (downloadData <-
       canvasToDataURL E c (VStr "image/jpeg")
         (js_or q (VNum (Fin (8 # 10)%Q))) ;;
     dom H OpCreateElement
       (ECreateAnchor downloadData "photo-converted.jpg") ;;
     dom H OpAppendChild EAppendChild ;;
     dom H OpClick EClick ;;
     dom H OpRemoveChild ERemoveChild ;;
     (if Str.startsWith "blob:" downloadData
      then dom H OpSetTimeout (ESetTimeout 100 downloadData)
      else ret tt) ;;
     ret "photo-converted.jpg").
Proof.
  unfold downloadFile_try. cbn [data_truthy to_boolean negb orb].
  change (negb ("photo.png" =? "")) with true.
  change (negb ("jpeg" =? "")) with true. cbn [negb orb].
  change (getFileExtension E (VStr "jpeg")) with (ret (VStr "jpg")).
  rewrite bind_ret_l.
  change (getMimeType E (VStr "jpeg")) with (ret (VStr "image/jpeg")).
  rewrite bind_ret_l.
  change (call_cleanFilename E (VStr "photo.png")) with (ret "photo").
  rewrite bind_ret_l.
  change (to_string E (VStr "jpg")) with (ret "jpg").
  rewrite bind_ret_l.
  change (resolve_data E H (DCanvas c) (VStr "image/jpeg")
            (VObj [("quality", q)]))
    with (x <- ret q ;;
          canvasToDataURL E c (VStr "image/jpeg")
            (js_or x (VNum (Fin (8 # 10)%Q)))).
  rewrite bind_ret_l. reflexivity.
Qed.

(** The encoder is first called at the quality [q || 0.8]. *)
Lemma downloadFile_first_encode (c : Canvas) (q : value) :
  exists rest,
    trace (downloadFile E H (DCanvas c) (VStr "photo.png") (VStr "jpeg")
             (VObj [("quality", q)]))
    = EEncode (VStr "image/jpeg")
        (Some (js_or q (VNum (Fin (8 # 10)%Q)))) :: rest.
Proof.
  unfold downloadFile. cbn [default_param].
  rewrite downloadFile_try_canvas_jpeg.
  assert (Hfirst : exists rest,
             trace (canvasToDataURL E c (VStr "image/jpeg")
                      (js_or q (VNum (Fin (8 # 10)%Q))))
             = EEncode (VStr "image/jpeg")
                 (Some (js_or q (VNum (Fin (8 # 10)%Q)))) :: rest).
  { destruct (canvasToDataURL_first_call E c "image/jpeg"
                (js_or q (VNum (Fin (8 # 10)%Q)))) as [rest Hrest].
    rewrite default_param_js_or in Hrest by discriminate.
    exists rest. exact Hrest. }
  destruct Hfirst as [rest Hfirst].
  destruct (trace_bind_head _
              (fun downloadData =>
                 dom H OpCreateElement
                   (ECreateAnchor downloadData "photo-converted.jpg") ;;
                 dom H OpAppendChild EAppendChild ;;
                 dom H OpClick EClick ;;
                 dom H OpRemoveChild ERemoveChild ;;
                 (if Str.startsWith "blob:" downloadData
                  then dom H OpSetTimeout (ESetTimeout 100 downloadData)
                  else ret tt) ;;
                 ret "photo-converted.jpg") _ _ Hfirst) as [rest1 H1].
  destruct (trace_bind_head _ (fun name => ret (DSuccess name)) _ _ H1)
    as [rest2 H2].
  eapply trace_try_catch_head. exact H2.
Qed.

Lemma never_at_zero_silent {A} (m : M A) : silent m -> never_at_zero m.
Proof. exact (silent_trace_all _ m). Qed.

Lemma never_at_zero_catch (error : value) :
  never_at_zero (downloadFile_catch E error).
Proof.
  unfold downloadFile_catch.
  apply never_at_zero_bind.
  { apply never_at_zero_emit. intros [type Hev]. discriminate Hev. }
  intros _. apply never_at_zero_silent.
  apply silent_bind; [apply silent_get|]. intros m.
  apply silent_bind; [apply silent_getErrorSuggestion|]. intros.
  apply silent_ret.
Qed.

Lemma never_at_zero_dom (op : DomOp) (ev : Event) :
  ~ EncodesAtZero ev -> never_at_zero (dom H op ev).
Proof.
  intros Hev. unfold dom. destruct (dom_failure H op).
  - apply never_at_zero_nil.
  - now apply never_at_zero_emit.
Qed.

(** At a quality that is not 0, canvasToDataURL makes no call at 0. *)
Lemma never_at_zero_canvasToDataURL (c : Canvas) (mime : string) (q : Q) :
  Qeq_bool q 0%Q = false ->
  never_at_zero (canvasToDataURL E c (VStr mime) (VNum (Fin q))).
Proof.
  intros Hq.
  assert (Hsome : forall type,
             ~ EncodesAtZero (EEncode type (Some (VNum (Fin q))))).
  { intros type [type' Hev]. injection Hev as _ ->. discriminate Hq. }
  assert (Hfirst : ~ EncodesAtZero
                     (EEncode (VStr mime)
                        (first_quality mime (VNum (Fin q))))).
  { unfold first_quality. destruct (String.eqb mime "image/png");
      [intros [type Hev]; discriminate Hev | apply Hsome]. }
  destruct (toDataURL c (VStr mime)
              (first_quality mime
                 (default_param (VNum (Fin q)) (VNum (Fin (8 # 10)%Q)))))
    as [url|e] eqn:Hrun.
  - rewrite (canvasToDataURL_ok E c mime (VNum (Fin q)) url Hrun).
    constructor; [exact Hfirst | constructor].
  - rewrite (canvasToDataURL_failed E c mime (VNum (Fin q)) e Hrun).
    cbn [default_param]. destruct (is_fallback e).
    + repeat constructor; auto. intros [type Hev]. discriminate Hev.
    + constructor; [exact Hfirst | constructor].
Qed.

(** C2 at [{quality: 0}]: the option is present and 0 lies in [0,1], but
    [options.quality || 0.8] takes 0 for absent, and the surface is
    encoded at 0.8: whatever the canvas and the page, the first encoder
    call carries 0.8 and no encoder call of the run carries 0. *)
Theorem downloadFile_quality_zero (c : Canvas) :
  let run :=
    downloadFile E H (DCanvas c) (VStr "photo.png") (VStr "jpeg")
      (VObj [("quality", VNum (Fin 0%Q))]) in
  (exists rest,
      trace run
      = EEncode (VStr "image/jpeg") (Some (VNum (Fin (8 # 10)%Q))) :: rest)
  /\ forall ev, In ev (trace run) -> ~ EncodesAtZero ev.
Proof.
  intros run. split.
  - exact (downloadFile_first_encode c (VNum (Fin 0%Q))).
  - apply Forall_forall. change (never_at_zero run).
    unfold run, downloadFile. cbn [default_param].
    rewrite downloadFile_try_canvas_jpeg.
    change (js_or (VNum (Fin 0%Q)) (VNum (Fin (8 # 10)%Q)))
      with (VNum (Fin (8 # 10)%Q)).
    assert (Hdom : forall op ev,
               (forall type q, ev <> EEncode type q) ->
               never_at_zero (dom H op ev)).
    { intros op ev Hev. apply never_at_zero_dom.
      intros [type Heq]. exact (Hev _ _ Heq). }
    apply never_at_zero_try_catch; [|apply never_at_zero_catch].
    apply never_at_zero_bind; [|intros; apply never_at_zero_nil].
    apply never_at_zero_bind;
      [now apply never_at_zero_canvasToDataURL|]. intros url.
    repeat (apply never_at_zero_bind;
            [apply Hdom; discriminate | intros _]).
    apply never_at_zero_bind; [|intros; apply never_at_zero_nil].
    destruct (Str.startsWith "blob:" url);
      [apply Hdom; discriminate | apply never_at_zero_nil].
Qed.

(** For comparison, a quality that is a non-zero number is passed on, and
    an absent one gives 0.8. *)
Lemma downloadFile_quality_nonzero (c : Canvas) (q : Q) :
  Qeq_bool q 0%Q = false ->
  exists rest,
    trace (downloadFile E H (DCanvas c) (VStr "photo.png") (VStr "jpeg")
             (VObj [("quality", VNum (Fin q))]))
    = EEncode (VStr "image/jpeg") (Some (VNum (Fin q))) :: rest.
Proof.
  intros Hq. destruct (downloadFile_first_encode c (VNum (Fin q)))
    as [rest Hrest].
  exists rest. rewrite Hrest. unfold js_or. simpl. now rewrite Hq.
Qed.

Lemma downloadFile_quality_absent (c : Canvas) :
  exists rest,
    trace (downloadFile E H (DCanvas c) (VStr "photo.png") (VStr "jpeg")
             (VObj [("quality", VUndefined)]))
    = EEncode (VStr "image/jpeg") (Some (VNum (Fin (8 # 10)%Q))) :: rest.
Proof. exact (downloadFile_first_encode c VUndefined). Qed.

End Download.

(** C1 at a data URL with a string name and a string token. *)
Lemma downloadFile_never_throws_data_url :
  let attempt :=
    downloadFile_try Fixtures.engine Fixtures.page (DVal (VStr "data:,x"))
      (VStr "photo.png") (VStr "png") (default_param VUndefined (VObj [])) in
  (exists t name,
      attempt = (t, Return name)
      /\ In EClick t
      /\ downloadFile Fixtures.engine Fixtures.page (DVal (VStr "data:,x"))
           (VStr "photo.png") (VStr "png") VUndefined
         = (t, Return (DSuccess name)))
  \/ (exists t e m suggestion,
         attempt = (t, Throw e)
         /\ prop_of e p_message = VStr m
         /\ getErrorSuggestion Fixtures.engine e = ([], Return suggestion)
         /\ downloadFile Fixtures.engine Fixtures.page
              (DVal (VStr "data:,x")) (VStr "photo.png") (VStr "png")
              VUndefined
            = ((t ++ [EConsoleError e])%list,
               Return (DFailure (VStr m) suggestion))).
Proof.
  apply (downloadFile_never_throws Fixtures.engine Fixtures.page
           (DVal (VStr "data:,x")) (VStr "photo.png") (VStr "png")
           VUndefined).
  left. split; [|reflexivity].
  exists "photo.png", "png". split; reflexivity.
Defined.

(** C1 as stated fails when the name is an object whose replace method
    throws null: the catch block logs null, reading [error.message] raises
    a TypeError, and the promise is rejected with it. *)
Lemma downloadFile_rejects :
  downloadFile Fixtures.engine Fixtures.page (DVal (VStr "data:,x"))
    (VObj [("replace",
            VFunction "replace" "replace() { throw null }" true VNull)])
    (VStr "png") VUndefined
  = ([EConsoleError VNull],
     Throw (error_value
              (mkJsError "TypeError"
                 "Cannot read properties of undefined or null (reading 'message')"))).
Proof. reflexivity. Qed.


(** ** validateFile *)

Lemma number_gt_limit (bytes maxSizeMB : number) :
  number_gt bytes (number_mul (number_mul maxSizeMB (num 1024)) (num 1024))
  = true
  <-> ExceedsLimit bytes maxSizeMB.
Proof.
  unfold ExceedsLimit.
  destruct bytes as [|b], maxSizeMB as [|m]; simpl.
  - split; [discriminate | intros (? & ? & ? & _); discriminate].
  - split; [discriminate | intros (? & ? & ? & _); discriminate].
  - split; [discriminate | intros (? & ? & _ & ? & _); discriminate].
  - rewrite negb_true_iff. split.
    + intros Hle. exists b, m. repeat split.
      apply Qnot_le_lt. intros Hc. apply Qle_bool_iff in Hc. congruence.
    + intros (b' & m' & Hb & Hm & Hlt).
      injection Hb as <-. injection Hm as <-.
      apply not_true_is_false. intros Hc. apply Qle_bool_iff in Hc.
      exact (Qlt_not_le _ _ Hlt Hc).
Qed.

(** Closes the clauses on the two error lists once the tests are known. *)
Ltac validation_cases Hlim :=
  repeat split; intros; try reflexivity; try discriminate;
  try congruence;
  try (exfalso;
       match goal with
       | Hx : ~ ExceedsLimit _ _ |- _ => apply Hx; apply Hlim; reflexivity
       end);
  try (match goal with
       | Hx : ExceedsLimit _ _ |- _ => apply Hlim in Hx; discriminate Hx
       end).

Section Validation.

Variable E : Engine.

(** The run of validateFile on a present file with a string name whose
    size converts to a number. *)
Lemma validateFile_present (file : value) (maxSizeMB : number)
    (name : string) (bytes : number) :
  to_boolean file = true ->
  prop_of file p_name = VStr name ->
  to_number E (prop_of file p_size) = ([], Return bytes) ->
  validateFile E file maxSizeMB
  = let errors1 :=
      if number_gt bytes
           (number_mul (number_mul maxSizeMB (num 1024)) (num 1024))
      then [size_error E maxSizeMB] else [] in
    let errors2 :=
      if negb (to_boolean (prop_of file p_type))
      then (errors1 ++ ["Unable to determine file type"])%list
      else errors1 in
    ([], Return
           (mkValidationResult (Nat.eqb (List.length errors2) 0) errors2
              (Some (mkFileInfo (VStr name) (prop_of file p_size)
                       (prop_of file p_type)
                       (js_or (table_get extensions
                                 (Str.toLowerCase
                                    (match rev (Str.split "." name) with
                                     | x :: _ => x
                                     | [] => EmptyString
                                     end)))
                          (VStr "file")))))).
Proof.
  intros Htrue Hname Hsize. unfold validateFile. rewrite Htrue.
  cbn [negb].
  assert (Hget : forall p, get E file p = ret (prop_of file p)).
  { intros p. destruct file; try reflexivity; discriminate. }
  rewrite !Hget, !bind_ret_l, Hname.
  change (@pair (list Event) (Completion number) [] (Return bytes))
    with (ret bytes) in Hsize.
  rewrite Hsize, !bind_ret_l.
  unfold pop.
  pose proof (StrFacts.split_nonempty "." name) as Hne.
  destruct (rev (Str.split "." name)) as [|x rest] eqn:Hrev.
  - exfalso. apply Hne. apply (f_equal (@rev string)) in Hrev.
    now rewrite rev_involutive in Hrev.
  - rewrite getFileExtension_string. reflexivity.
Qed.

(** C4, as the code has it: validateFile returns its result structure,
    without raising and without any effect, for an absent (falsy) file and
    for a present file whose name is a string and whose size converts to a
    number; fileInfo is left out exactly for the absent file. *)
Theorem validateFile_returns (file : value) (maxSizeMB : number) :
  (to_boolean file = false
   \/ exists name bytes,
        prop_of file p_name = VStr name
        /\ to_number E (prop_of file p_size) = ([], Return bytes)) ->
  exists r,
    validateFile E file maxSizeMB = ([], Return r)
    /\ (fileInfo r = None <-> to_boolean file = false).
Proof.
  intros [Habsent | (name & bytes & Hname & Hsize)].
  - unfold validateFile. rewrite Habsent. eexists. split; [reflexivity|].
    simpl. tauto.
  - destruct (to_boolean file) eqn:Htrue.
    + rewrite (validateFile_present file maxSizeMB name bytes Htrue Hname
                 Hsize).
      eexists. split; [reflexivity|]. simpl. split; discriminate.
    + unfold validateFile. rewrite Htrue. eexists. split; [reflexivity|].
      simpl. tauto.
Qed.

(** C8: an absent file gives [{isValid: false, errors: ["No file
    selected"]}] at once, without fileInfo.  For a present file (a string
    name, a size that converts to the number [bytes]) the error list is
    the size error, if [bytes] exceeds maxSizeMB * 1024 * 1024, followed
    by the type error, if the type is missing or empty: both checks are
    made, neither stops the other; isValid is true exactly when the list
    is empty, and fileInfo is there. *)
Theorem validateFile_accumulates (file : value) (maxSizeMB : number)
    (name : string) (bytes : number) :
  to_boolean file = true ->
  prop_of file p_name = VStr name ->
  to_number E (prop_of file p_size) = ([], Return bytes) ->
  (forall absent,
      to_boolean absent = false ->
      validateFile E absent maxSizeMB
      = ([], Return (mkValidationResult false ["No file selected"] None)))
  /\ exists r size_errors type_errors,
       validateFile E file maxSizeMB = ([], Return r)
       /\ errors r = (size_errors ++ type_errors)%list
       /\ (ExceedsLimit bytes maxSizeMB ->
           size_errors = [size_error E maxSizeMB])
       /\ (~ ExceedsLimit bytes maxSizeMB -> size_errors = [])
       /\ (to_boolean (prop_of file p_type) = false ->
           type_errors = ["Unable to determine file type"])
       /\ (to_boolean (prop_of file p_type) = true -> type_errors = [])
       /\ (isValid r = true <-> errors r = [])
       /\ fileInfo r <> None.
Proof.
  intros Htrue Hname Hsize. split.
  - intros absent Habsent. unfold validateFile. now rewrite Habsent.
  - rewrite (validateFile_present file maxSizeMB name bytes Htrue Hname
               Hsize).
    cbv zeta. pose proof (number_gt_limit bytes maxSizeMB) as Hlim.
    destruct (number_gt bytes _) eqn:Hgt;
      destruct (to_boolean (prop_of file p_type)) eqn:Htype; cbn [negb].
    + eexists. exists [size_error E maxSizeMB], [].
      split; [reflexivity|]. simpl. validation_cases Hlim.
    + eexists.
      exists [size_error E maxSizeMB], ["Unable to determine file type"].
      split; [reflexivity|]. simpl. validation_cases Hlim.
    + eexists. exists [], [].
      split; [reflexivity|]. simpl. validation_cases Hlim.
    + eexists. exists [], ["Unable to determine file type"].
      split; [reflexivity|]. simpl. validation_cases Hlim.
Qed.

End Validation.

(** C4 as stated fails: a present file object without a name makes
    validateFile throw a TypeError at [file.name.split]. *)
Lemma validateFile_nameless_throws :
  validateFile Fixtures.engine
    (VObj [("size", VNum (num 1024)); ("type", VStr "image/png")]) (num 5)
  = ([], Throw (error_value
                  (mkJsError "TypeError"
                     "Cannot read properties of undefined or null (reading 'split')"))).
Proof. reflexivity. Qed.

(** C4 at a well-formed file. *)
Lemma validateFile_returns_png :
  exists r,
    validateFile Fixtures.engine
      (VObj [("size", VNum (num 1024)); ("type", VStr "image/png");
             ("name", VStr "x.png")]) (num 5)
    = ([], Return r)
    /\ (fileInfo r = None <-> true = false).
Proof.
  apply (validateFile_returns Fixtures.engine
           (VObj [("size", VNum (num 1024)); ("type", VStr "image/png");
                  ("name", VStr "x.png")]) (num 5)).
  right. exists "x.png", (num 1024). split; reflexivity.
Defined.

(** The example of C8: six megabytes against a limit of five. *)
Lemma validateFile_six_megabytes :
  exists r,
    validateFile Fixtures.engine
      (VObj [("size", VNum (num (6 * 1024 * 1024)));
             ("type", VStr "image/png"); ("name", VStr "x.png")]) (num 5)
    = ([], Return r)
    /\ isValid r = false
    /\ errors r = ["File size must be less than 5MB"].
Proof.
  destruct (validateFile_accumulates Fixtures.engine
              (VObj [("size", VNum (num (6 * 1024 * 1024)));
                     ("type", VStr "image/png"); ("name", VStr "x.png")])
              (num 5) "x.png" (num (6 * 1024 * 1024))
              eq_refl eq_refl eq_refl)
    as (_ & r & se & te & Hrun & Herrs & Hsize & _ & _ & Htype & Hvalid & _).
  exists r. split; [exact Hrun|].
  assert (Hse : se = ["File size must be less than 5MB"]).
  { apply Hsize. exists (inject_Z (6 * 1024 * 1024)), (inject_Z 5).
    repeat split. }
  assert (Hte : te = []) by (apply Htype; reflexivity).
  rewrite Herrs, Hse, Hte in *. split; [|reflexivity].
  destruct (isValid r); [|reflexivity].
  destruct Hvalid as [Hvalid _]. discriminate (Hvalid eq_refl).
Defined.

(** ** Further properties of cleanFilename *)

Lemma all_impl (f g : ascii -> bool) (s : string) :
  (forall c, f c = true -> g c = true) ->
  Str.all f s = true -> Str.all g s = true.
Proof.
  intros Hfg. induction s as [|c s IH]; simpl; [reflexivity|].
  intros Hs. apply andb_true_iff in Hs. destruct Hs as [Hc Hs].
  now rewrite (Hfg c Hc), IH.
Qed.

Lemma safe_char_not_dot (c : ascii) :
  safe_char c = true -> negb (Ascii.eqb c ".") = true.
Proof.
  destruct (Ascii.eqb c ".") eqn:Hc; [|reflexivity].
  apply Ascii.eqb_eq in Hc. subst c. discriminate.
Qed.

Lemma replace_special_fixed (s : string) :
  Str.all safe_char s = true -> replace_special s = s.
Proof.
  unfold replace_special. induction s as [|c s IH]; simpl; [reflexivity|].
  intros Hs. apply andb_true_iff in Hs. destruct Hs as [Hc Hs].
  now rewrite Hc, IH.
Qed.

Lemma take_fixed (n : nat) (s : string) :
  String.length s <= n -> Str.take n s = s.
Proof.
  revert s. induction n as [|n IH]; intros [|c s]; simpl; try reflexivity.
  - lia.
  - intros Hs. rewrite IH; [reflexivity | lia].
Qed.

Lemma take_length_min (n : nat) (s : string) :
  String.length (Str.take n s) = Nat.min n (String.length s).
Proof.
  revert s. induction n as [|n IH]; intros [|c s]; simpl; try reflexivity.
  now rewrite IH.
Qed.

Lemma cleanFilename_unchanged (s : string) :
  Str.all safe_char s = true ->
  String.length s <= 50 ->
  cleanFilename s = s.
Proof.
  intros Hsafe Hlen. unfold cleanFilename.
  rewrite strip_extension_no_dot
    by (apply (all_impl safe_char); [apply safe_char_not_dot | exact Hsafe]).
  rewrite replace_special_fixed by exact Hsafe.
  now apply take_fixed.
Qed.

(** A name made of at most 50 letters, digits, '-' and '_' is left as it
    is. *)
Theorem cleanFilename_safe_fixed (s : string) :
  Str.all safe_char s = true ->
  String.length s <= 50 ->
  cleanFilename s = s.
Proof.
  intros Hsafe Hlen. apply cleanFilename_unchanged; assumption.
Qed.

Lemma cleanFilename_safe_fixed_report :
  cleanFilename "report_2024-final" = "report_2024-final".
Proof.
  apply (cleanFilename_safe_fixed "report_2024-final"); [reflexivity|].
  simpl. lia.
Defined.

(** Cleaning a cleaned name changes nothing. *)
Theorem cleanFilename_idempotent (s : string) :
  cleanFilename (cleanFilename s) = cleanFilename s.
Proof.
  apply cleanFilename_unchanged.
  - unfold cleanFilename. apply StrFacts.all_take, replace_special_safe.
  - unfold cleanFilename. apply StrFacts.take_length.
Qed.

(** Whatever the first replacement removes is one final extension: the
    result is the input itself, or the input without a last ".ext" whose
    [ext] is non-empty and has neither '.' nor '/'. *)
Theorem strip_extension_prefix (s : string) :
  strip_extension s = s
  \/ exists ext,
       ext <> EmptyString /\ Str.all ext_char ext = true
       /\ s = strip_extension s ++ String "." ext.
Proof.
  induction s as [|c s IH]; [now left|].
  cbn [strip_extension]. destruct (ext_match (String c s)) eqn:Hm.
  - right. unfold ext_match in Hm.
    apply andb_true_iff in Hm. destruct Hm as [Hc Hs].
    apply Ascii.eqb_eq in Hc. subst c.
    destruct s as [|d s]; [discriminate|].
    exists (String d s). repeat split; [discriminate | exact Hs].
  - destruct IH as [IH | (ext & Hne & Hext & IH)].
    + left. now rewrite IH.
    + right. exists ext. repeat split; try assumption.
      simpl. now rewrite <- IH.
Qed.

(** The extension does not count: a name [stem.ext] is cleaned to the
    first 50 characters of the sanitised stem, the same for every
    extension. *)
Theorem cleanFilename_extension_irrelevant (stem ext1 ext2 : string) :
  ext1 <> EmptyString -> Str.all ext_char ext1 = true ->
  ext2 <> EmptyString -> Str.all ext_char ext2 = true ->
  cleanFilename (stem ++ String "." ext1)
  = cleanFilename (stem ++ String "." ext2)
  /\ cleanFilename (stem ++ String "." ext1)
     = Str.take 50 (replace_special stem).
Proof.
  intros Hne1 Hext1 Hne2 Hext2. unfold cleanFilename.
  now rewrite !strip_extension_suffix.
Qed.

Lemma cleanFilename_extension_irrelevant_photo :
  cleanFilename "holiday photo.jpeg" = cleanFilename "holiday photo.png"
  /\ cleanFilename "holiday photo.jpeg"
     = Str.take 50 (replace_special "holiday photo").
Proof.
  apply (cleanFilename_extension_irrelevant "holiday photo" "jpeg" "png");
    first [discriminate | reflexivity].
Defined.

(** A name that is only an extension, such as ".bashrc", is cleaned to
    the empty string. *)
Theorem cleanFilename_dot_file (ext : string) :
  ext <> EmptyString -> Str.all ext_char ext = true ->
  cleanFilename (String "." ext) = EmptyString.
Proof.
  intros Hne Hext. unfold cleanFilename.
  change (String "." ext) with (EmptyString ++ String "." ext).
  now rewrite (strip_extension_suffix EmptyString ext Hne Hext).
Qed.

Lemma cleanFilename_dot_file_bashrc : cleanFilename ".bashrc" = EmptyString.
Proof.
  apply (cleanFilename_dot_file "bashrc"); [discriminate | reflexivity].
Defined.

(** The length of the result: that of the name without its extension,
    capped at 50; never more than the length of the input. *)
Theorem cleanFilename_length (s : string) :
  String.length (cleanFilename s)
  = Nat.min 50 (String.length (strip_extension s))
  /\ String.length (cleanFilename s) <= String.length s.
Proof.
  assert (Hlen : String.length (cleanFilename s)
                 = Nat.min 50 (String.length (strip_extension s))).
  { unfold cleanFilename.
    now rewrite take_length_min, replace_special_length. }
  split; [exact Hlen|]. rewrite Hlen.
  assert (Hstrip : String.length (strip_extension s) <= String.length s).
  { clear Hlen. induction s as [|c s IH]; [simpl; lia|].
    cbn [strip_extension]. destruct (ext_match (String c s)); simpl; lia. }
  lia.
Qed.

(** ** Further properties of the format tables *)

Section FormatTables.

Variable E : Engine.

(** Closes a goal about a key of the two tables by going through the
    comparisons of [assoc] one after the other. *)
Ltac table_cases :=
  unfold table_get, extensions, mimeTypes; cbn [assoc];
  repeat match goal with
         | |- context [String.eqb ?a ?b] =>
             let Hk := fresh "Hk" in
             destruct (String.eqb a b) eqn:Hk;
             [apply String.eqb_eq in Hk | ]
         end.

(** Called on a value that has no toLowerCase method to call (undefined
    and null, numbers, booleans, objects without a callable property of
    that name), both lookups raise a TypeError before the table is read. *)
Theorem format_not_string (format : value) :
  lacks_method m_toLowerCase format = true ->
  exists je,
    err_name je = "TypeError"
    /\ getFileExtension E format = ([], Throw (error_value je))
    /\ getMimeType E format = ([], Throw (error_value je)).
Proof.
  intros Hlacks. unfold getFileExtension, getMimeType.
  destruct (string_method_lacks E m_toLowerCase format []
              (fun s => VStr (Str.toLowerCase s)) eq_refl Hlacks)
    as (je & Hname & ->).
  exists je. repeat split. exact Hname.
Qed.

(** A token that getFileExtension knows is resolved by both lookups to a
    pair that the supportedFormats table of the constructor lists: the
    MIME type it names maps to the extension. *)
Theorem format_tables_agree (s : string) :
  assoc (Str.toLowerCase s) extensions <> None ->
  exists ext mime,
    getFileExtension E (VStr s) = ([], Return (VStr ext))
    /\ getMimeType E (VStr s) = ([], Return (VStr mime))
    /\ assoc mime supportedFormats = Some ext.
Proof.
  rewrite getFileExtension_string, getMimeType_string.
  generalize (Str.toLowerCase s). intros key.
  table_cases; intros Hkey; try congruence;
    do 2 eexists; (split; [reflexivity | split; reflexivity]).
Qed.

(** Round trip through supportedFormats: the extension of every listed
    format, used as a token, resolves to that extension and to the MIME
    type it is listed under. *)
Theorem supportedFormats_round_trip (mime ext : string) :
  In (mime, ext) supportedFormats ->
  getFileExtension E (VStr ext) = ([], Return (VStr ext))
  /\ getMimeType E (VStr ext) = ([], Return (VStr mime)).
Proof.
  intros Hin. simpl in Hin.
  repeat (destruct Hin as [Heq | Hin];
          [injection Heq as <- <-; split; reflexivity|]).
  contradiction.
Qed.

(** An extension that getFileExtension returns is a token it maps to
    itself. *)
Theorem getFileExtension_fixed_point (s ext : string) :
  getFileExtension E (VStr s) = ([], Return (VStr ext)) ->
  getFileExtension E (VStr ext) = ([], Return (VStr ext)).
Proof.
  rewrite getFileExtension_string.
  pose proof (lower_not_method s) as Hmethod. revert Hmethod.
  generalize (Str.toLowerCase s). intros key Hmethod Hrun.
  assert (Hext : In ext ["jpg"; "png"; "webp"; "gif"; "pdf"; "txt"; "json";
                         "file"]).
  { revert Hrun. unfold table_get, extensions. cbn [assoc].
    repeat match goal with
           | |- context [String.eqb key ?b] => destruct (String.eqb key b)
           end;
      try (intros Hrun; injection Hrun as <-; simpl; tauto).
    unfold object_prototype_get. rewrite Hmethod.
    destruct (String.eqb key "constructor"); [discriminate|].
    destruct (String.eqb key "__proto__"); [discriminate|].
    intros Hrun; injection Hrun as <-; simpl; tauto. }
  simpl in Hext.
  repeat (destruct Hext as [<- | Hext]; [reflexivity|]).
  contradiction.
Qed.

(** The two tables have the same keys: a token gets the default extension
    exactly when it gets the default MIME type. *)
Theorem format_defaults_together (s : string) :
  getFileExtension E (VStr s) = ([], Return (VStr "file"))
  <-> getMimeType E (VStr s)
      = ([], Return (VStr "application/octet-stream")).
Proof.
  rewrite getFileExtension_string, getMimeType_string.
  generalize (Str.toLowerCase s). intros key.
  table_cases; try (split; intros Hrun; discriminate Hrun).
  unfold js_or. destruct (object_prototype_get key) eqn:Hget;
    try (split; reflexivity);
    unfold object_prototype_get in Hget;
    repeat match type of Hget with
           | (if ?c then _ else _) = _ => destruct c
           end; try discriminate;
    simpl; split; intros Hrun; discriminate Hrun.
Qed.

End FormatTables.

Lemma format_not_string_number :
  exists je,
    err_name je = "TypeError"
    /\ getFileExtension Fixtures.engine (VNum (num 5))
       = ([], Throw (error_value je))
    /\ getMimeType Fixtures.engine (VNum (num 5))
       = ([], Throw (error_value je)).
Proof.
  apply (format_not_string Fixtures.engine (VNum (num 5))). reflexivity.
Defined.

(** A token that is an object with a toLowerCase method of its own: the
    lookup is made under the text of what the call gives. *)
Example getFileExtension_object_token :
  getFileExtension Fixtures.engine
    (VObj [("toLowerCase", VNative (NFunction "toString"))])
  = ([], Return (VStr "file")).
Proof. reflexivity. Qed.

Lemma format_tables_agree_text :
  exists ext mime,
    getFileExtension Fixtures.engine (VStr "TEXT") = ([], Return (VStr ext))
    /\ getMimeType Fixtures.engine (VStr "TEXT") = ([], Return (VStr mime))
    /\ assoc mime supportedFormats = Some ext.
Proof.
  apply (format_tables_agree Fixtures.engine "TEXT"). discriminate.
Defined.

Lemma supportedFormats_round_trip_pdf :
  getFileExtension Fixtures.engine (VStr "pdf") = ([], Return (VStr "pdf"))
  /\ getMimeType Fixtures.engine (VStr "pdf")
     = ([], Return (VStr "application/pdf")).
Proof.
  apply (supportedFormats_round_trip Fixtures.engine "application/pdf" "pdf").
  simpl. tauto.
Defined.

Lemma getFileExtension_fixed_point_jpeg :
  getFileExtension Fixtures.engine (VStr "jpg") = ([], Return (VStr "jpg")).
Proof.
  apply (getFileExtension_fixed_point Fixtures.engine "JPEG" "jpg"). reflexivity.
Defined.


(** ** Further properties of getErrorSuggestion *)

Section SuggestionMore.

Variable E : Engine.

Lemma suggestion_for_hint (errorMsg : string) :
  In (suggestion_for errorMsg)
     [security_hint; format_hint; size_hint; generic_hint].
Proof.
  unfold suggestion_for.
  repeat match goal with
         | |- context [if ?c then _ else _] => destruct c
         end; simpl; tauto.
Qed.



(** When the message of the error has no toLowerCase method to call (an
    undefined or null error, an error without a message, a message that
    is a number) getErrorSuggestion raises a TypeError. *)
Theorem getErrorSuggestion_no_message (error : value) :
  lacks_method m_toLowerCase (prop_of error p_message) = true ->
  exists je,
    err_name je = "TypeError"
    /\ getErrorSuggestion E error = ([], Throw (error_value je)).
Proof.
  intros Hlacks. unfold getErrorSuggestion.
  destruct error as [| | | | | | |];
    try (eexists (mkJsError _ _); split; reflexivity);
    (change (get E ?v p_message) with (ret (prop_of v p_message));
     rewrite bind_ret_l;
     destruct (string_method_lacks E m_toLowerCase _ []
                 (fun s => VStr (Str.toLowerCase s)) eq_refl Hlacks)
       as (je & Hname & ->);
     exists je; split; [exact Hname | reflexivity]).
Qed.

End SuggestionMore.


(** A message that is an object with a toLowerCase method of its own. *)
Example getErrorSuggestion_object_message :
  getErrorSuggestion Fixtures.engine
    (VObj [("message",
            VObj [("toLowerCase", VNative (NFunction "toString"))])])
  = ([], Return generic_hint).
Proof. reflexivity. Qed.

Lemma getErrorSuggestion_no_message_string :
  exists je,
    err_name je = "TypeError"
    /\ getErrorSuggestion Fixtures.engine (VStr "failed")
       = ([], Throw (error_value je)).
Proof.
  apply (getErrorSuggestion_no_message Fixtures.engine (VStr "failed")).
  reflexivity.
Defined.


(** ** Further properties of canvasToDataURL *)

Section CanvasMore.

Variable E : Engine.


(** A data URL that canvasToDataURL returns is what the encoder produced,
    for the type asked or, after a failure that calls for the retry, for
    JPEG at the quality given. *)
Theorem canvasToDataURL_result (c : Canvas) (mime : string) (q : value)
    (url : string) :
  let quality := default_param q (VNum (Fin (8 # 10)%Q)) in
  outcome (canvasToDataURL E c (VStr mime) q) = Return url ->
  toDataURL c (VStr mime) (first_quality mime quality) = HOk url
  \/ (exists e,
         toDataURL c (VStr mime) (first_quality mime quality) = HFail e
         /\ IndicatesFallback e
         /\ toDataURL c (VStr "image/jpeg") (Some quality) = HOk url).
Proof.
  intros quality Hrun.
  destruct (toDataURL c (VStr mime) (first_quality mime quality))
    as [url'|e] eqn:Hfirst.
  - rewrite (canvasToDataURL_ok E c mime q url' Hfirst) in Hrun.
    injection Hrun as ->. now left.
  - right. exists e. split; [reflexivity|].
    rewrite (canvasToDataURL_failed E c mime q e Hfirst) in Hrun.
    fold quality in Hrun.
    destruct (is_fallback e) eqn:Hfb; [|discriminate Hrun].
    split; [now apply is_fallback_spec|].
    simpl in Hrun.
    destruct (toDataURL c (VStr "image/jpeg") (Some quality));
      [|discriminate Hrun].
    injection Hrun as ->. reflexivity.
Qed.

End CanvasMore.


Lemma canvasToDataURL_result_jpeg_only :
  toDataURL Fixtures.jpeg_only_canvas (VStr "image/png")
    (first_quality "image/png" (VNum (Fin (9 # 10)%Q)))
  = HOk "data:image/jpeg;base64,HIGH"
  \/ (exists e,
         toDataURL Fixtures.jpeg_only_canvas (VStr "image/png")
           (first_quality "image/png" (VNum (Fin (9 # 10)%Q))) = HFail e
         /\ IndicatesFallback e
         /\ toDataURL Fixtures.jpeg_only_canvas (VStr "image/jpeg")
              (Some (VNum (Fin (9 # 10)%Q)))
            = HOk "data:image/jpeg;base64,HIGH").
Proof.
  apply (canvasToDataURL_result Fixtures.engine Fixtures.jpeg_only_canvas
           "image/png" (VNum (Fin (9 # 10)%Q))).
  reflexivity.
Defined.

(** ** Further properties of downloadFile *)

Section DownloadMore.

Variable E : Engine.
Variable H : Host.

(** The missing-parameter guard: when the data, the name or the token is
    falsy, downloadFile logs the error and returns the failure with the
    generic hint; the page is not touched and nothing is encoded. *)
Theorem downloadFile_missing_parameter (data : Data)
    (filename format options : value) :
  data_truthy data = false \/ to_boolean filename = false
  \/ to_boolean format = false ->
  downloadFile E H data filename format options
  = ([EConsoleError
        (new_Error "Missing required parameters for download")],
     Return (DFailure (VStr "Missing required parameters for download")
               generic_hint)).
Proof.
  intros Hmissing. unfold downloadFile. rewrite downloadFile_try_unfold.
  assert (Hguard : negb (data_truthy data) || negb (to_boolean filename)
                   || negb (to_boolean format) = true).
  { destruct Hmissing as [-> | [-> | ->]]; simpl;
      rewrite ?orb_true_r; reflexivity. }
  rewrite Hguard. reflexivity.
Qed.

(** A data URL is passed through: with a string name and token, on a page
    whose DOM operations succeed, the only effects are the anchor with the
    data URL as its target, its insertion, the click and its removal; no
    blob or object URL is made and no timer is set.  The name is the
    cleaned file name, "-converted." and the extension. *)
Theorem downloadFile_data_url (s fn f : string) (options : value) :
  Str.startsWith "data:" s = true ->
  fn <> EmptyString -> f <> EmptyString ->
  (forall op, dom_failure H op = None) ->
  exists v ext,
    getFileExtension E (VStr f) = ([], Return v)
    /\ to_string E v = ([], Return ext)
    /\ let name := cleanFilename fn ++ "-converted." ++ ext in
       downloadFile E H (DVal (VStr s)) (VStr fn) (VStr f) options
       = ([ECreateAnchor s name; EAppendChild; EClick; ERemoveChild],
          Return (DSuccess name)).
Proof.
  intros Hdata Hfn Hf Hok.
  destruct (extension_text E (Str.toLowerCase f)) as [ext Hext].
  exists (js_or (table_get extensions (Str.toLowerCase f)) (VStr "file")),
    ext.
  split; [reflexivity|]. split; [exact Hext|]. cbv zeta.
  assert (Hs : s <> EmptyString) by (intros ->; discriminate Hdata).
  unfold downloadFile.
  rewrite downloadFile_try_strings;
    [| exact (to_boolean_VStr s Hs) | exact Hfn | exact Hf].
  change (@pair (list Event) (Completion string) [] (Return ext))
    with (ret ext) in Hext.
  rewrite Hext, bind_ret_l. cbn [resolve_data]. rewrite Hdata.
  rewrite bind_ret_l, trigger_download_ok by exact Hok.
  unfold download_events. rewrite (data_not_blob s Hdata). reflexivity.
Qed.

(** A blob is given an object URL, downloaded through it, and the URL is
    handed to the 100 ms timer when it is of the blob scheme. *)
Theorem downloadFile_blob (b : Blob) (url fn f : string) (options : value) :
  createObjectURL H b = HOk url ->
  fn <> EmptyString -> f <> EmptyString ->
  (forall op, dom_failure H op = None) ->
  exists v ext,
    getFileExtension E (VStr f) = ([], Return v)
    /\ to_string E v = ([], Return ext)
    /\ let name := cleanFilename fn ++ "-converted." ++ ext in
       downloadFile E H (DBlob b) (VStr fn) (VStr f) options
       = ((ECreateObjectURL b :: download_events url name)%list,
          Return (DSuccess name)).
Proof.
  intros Hurl Hfn Hf Hok.
  destruct (extension_text E (Str.toLowerCase f)) as [ext Hext].
  exists (js_or (table_get extensions (Str.toLowerCase f)) (VStr "file")),
    ext.
  split; [reflexivity|]. split; [exact Hext|]. cbv zeta.
  unfold downloadFile.
  rewrite downloadFile_try_strings; [| reflexivity | exact Hfn | exact Hf].
  change (@pair (list Event) (Completion string) [] (Return ext))
    with (ret ext) in Hext.
  rewrite Hext, bind_ret_l. cbn [resolve_data]. unfold object_url.
  rewrite Hurl. cbn [of_host emit bind ret].
  rewrite trigger_download_ok by exact Hok.
  simpl. now rewrite app_nil_r.
Qed.

End DownloadMore.

Lemma downloadFile_missing_parameter_empty_name :
  downloadFile Fixtures.engine Fixtures.page (DBlob (mkBlob 1)) (VStr "")
    (VStr "pdf") VUndefined
  = ([EConsoleError
        (new_Error "Missing required parameters for download")],
     Return (DFailure (VStr "Missing required parameters for download")
               generic_hint)).
Proof.
  apply (downloadFile_missing_parameter Fixtures.engine Fixtures.page).
  right. left. reflexivity.
Defined.

Lemma downloadFile_data_url_png :
  exists v ext,
    getFileExtension Fixtures.engine (VStr "PNG") = ([], Return v)
    /\ to_string Fixtures.engine v = ([], Return ext)
    /\ let name := cleanFilename "logo v2.svg" ++ "-converted." ++ ext in
       downloadFile Fixtures.engine Fixtures.page
         (DVal (VStr "data:image/png;base64,AAAA")) (VStr "logo v2.svg")
         (VStr "PNG") VUndefined
       = ([ECreateAnchor "data:image/png;base64,AAAA" name; EAppendChild;
           EClick; ERemoveChild],
          Return (DSuccess name)).
Proof.
  apply (downloadFile_data_url Fixtures.engine Fixtures.page
           "data:image/png;base64,AAAA" "logo v2.svg" "PNG" VUndefined);
    first [reflexivity | discriminate].
Defined.

Lemma downloadFile_blob_pdf :
  exists v ext,
    getFileExtension Fixtures.engine (VStr "pdf") = ([], Return v)
    /\ to_string Fixtures.engine v = ([], Return ext)
    /\ let name := cleanFilename "scan.tiff" ++ "-converted." ++ ext in
       downloadFile Fixtures.engine Fixtures.page (DBlob (mkBlob 7))
         (VStr "scan.tiff") (VStr "pdf") VUndefined
       = ((ECreateObjectURL (mkBlob 7)
           :: download_events "blob:https://tools.example/0" name)%list,
          Return (DSuccess name)).
Proof.
  apply (downloadFile_blob Fixtures.engine Fixtures.page (mkBlob 7)
           "blob:https://tools.example/0" "scan.tiff" "pdf" VUndefined);
    first [reflexivity | discriminate].
Defined.

(** *** What a run of downloadFile is made of *)

Section DownloadRuns.

Variable E : Engine.
Variable H : Host.

Lemma off_page_encode (c : Canvas) (type : value) (quality : option value) :
  trace_all off_page (encode E c type quality).
Proof.
  apply trace_all_bind; [apply silent_trace_all, silent_to_string|].
  intros _. apply trace_all_bind; [now apply trace_all_emit|].
  intros _. apply trace_all_of_host.
Qed.

Lemma off_page_canvasToDataURL (c : Canvas) (mimeType quality : value) :
  trace_all off_page (canvasToDataURL E c mimeType quality).
Proof.
  apply trace_all_try_catch.
  - destruct (strict_eq_string mimeType "image/png"); apply off_page_encode.
  - intros e. unfold canvasToDataURL_catch.
    apply trace_all_bind; [apply silent_trace_all, silent_get|]. intros name.
    apply trace_all_bind.
    + apply silent_trace_all.
      destruct (strict_eq_string name "SecurityError");
        [apply silent_ret|].
      apply silent_bind; [apply silent_get|]. intros m.
      apply silent_includes_call.
    + intros [|]; [|apply trace_all_nil].
      apply trace_all_bind; [apply silent_trace_all, silent_to_string|].
      intros text.
      apply trace_all_bind; [now apply trace_all_emit|]. intros _.
      apply off_page_encode.
Qed.

Lemma off_page_object_url (b : Blob) : trace_all off_page (object_url H b).
Proof.
  apply trace_all_bind; [now apply trace_all_emit|].
  intros _. apply trace_all_of_host.
Qed.

Lemma off_page_blob_url (part mimeType : value) :
  trace_all off_page (blob_url E H part mimeType).
Proof.
  apply trace_all_bind; [apply silent_trace_all, silent_to_string|].
  intros _.
  apply trace_all_bind; [apply silent_trace_all, silent_to_string|].
  intros _.
  apply trace_all_bind; [now apply trace_all_emit|]. intros _.
  apply trace_all_bind; [apply trace_all_of_host|]. intros b.
  apply off_page_object_url.
Qed.

(** Resolving the data does not touch the page. *)
Lemma off_page_resolve_data (data : Data) (mimeType options : value) :
  trace_all off_page (resolve_data E H data mimeType options).
Proof.
  destruct data as [v|c|b]; cbn [resolve_data].
  - destruct v; try apply off_page_blob_url.
    destruct (Str.startsWith "data:" s);
      [apply trace_all_nil | apply off_page_blob_url].
  - apply trace_all_bind; [apply silent_trace_all, silent_get|]. intros q.
    apply off_page_canvasToDataURL.
  - apply off_page_object_url.
Qed.

Lemma off_page_timer_ok (ev : Event) : off_page ev -> timer_ok ev.
Proof. destruct ev; simpl; try discriminate; intros; exact I. Qed.

Lemma timer_ok_trigger_download (href name : string) :
  trace_all timer_ok (trigger_download H href name).
Proof.
  assert (Hdom : forall op ev, timer_ok ev -> trace_all timer_ok (dom H op ev)).
  { intros op ev Hev. unfold dom. destruct (dom_failure H op);
      [apply trace_all_nil | now apply trace_all_emit]. }
  unfold trigger_download.
  repeat (apply trace_all_bind; [apply Hdom; exact I | intros _]).
  apply trace_all_bind; [|intros; apply trace_all_nil].
  destruct (Str.startsWith "blob:" href) eqn:Hblob;
    [apply Hdom; now split | apply trace_all_nil].
Qed.

Lemma timer_ok_catch (error : value) :
  trace_all timer_ok (downloadFile_catch E error).
Proof.
  unfold downloadFile_catch.
  apply trace_all_bind; [now apply trace_all_emit|]. intros _.
  apply silent_trace_all.
  apply silent_bind; [apply silent_get|]. intros m.
  apply silent_bind; [apply silent_getErrorSuggestion|]. intros.
  apply silent_ret.
Qed.

(** Whatever the arguments and the page, a timer that downloadFile sets
    is for 100 ms and revokes a URL of the blob scheme: a data URL is
    never handed to revokeObjectURL. *)
Theorem downloadFile_timers (data : Data) (filename format options : value)
    (ms : nat) (url : string) :
  In (ESetTimeout ms url)
     (trace (downloadFile E H data filename format options)) ->
  ms = 100 /\ Str.startsWith "blob:" url = true.
Proof.
  assert (Hweak : forall A (m : M A), trace_all off_page m ->
                                      trace_all timer_ok m).
  { intros A m. apply Forall_impl. exact off_page_timer_ok. }
  assert (Hall : trace_all timer_ok
                   (downloadFile E H data filename format options)).
  { unfold downloadFile.
    apply trace_all_try_catch; [|apply timer_ok_catch].
    apply trace_all_bind; [|intros; apply trace_all_nil].
    rewrite downloadFile_try_unfold.
    destruct (negb (data_truthy data) || negb (to_boolean filename)
              || negb (to_boolean format)); [apply trace_all_nil|].
    apply trace_all_bind;
      [apply silent_trace_all, silent_getFileExtension|]. intros v.
    apply trace_all_bind;
      [apply silent_trace_all, silent_getMimeType|]. intros mime.
    apply trace_all_bind;
      [apply silent_trace_all, silent_call_cleanFilename|]. intros cn.
    apply trace_all_bind; [apply silent_trace_all, silent_to_string|].
    intros ext.
    apply trace_all_bind; [apply Hweak, off_page_resolve_data|]. intros href.
    apply timer_ok_trigger_download. }
  intros Hin. unfold trace_all in Hall.
  rewrite Forall_forall in Hall. exact (Hall _ Hin).
Qed.

(** The options are read for a canvas only: for any other data the run
    is the same whatever the options are. *)
Theorem downloadFile_options_unused (data : Data)
    (filename format options1 options2 : value) :
  (forall c, data <> DCanvas c) ->
  downloadFile E H data filename format options1
  = downloadFile E H data filename format options2.
Proof.
  intros Hdata. unfold downloadFile. rewrite !downloadFile_try_unfold.
  destruct data as [v|c|b].
  - destruct v; reflexivity.
  - exfalso. exact (Hdata c eq_refl).
  - reflexivity.
Qed.








End DownloadRuns.

Lemma downloadFile_timers_blob :
  100 = 100 /\ Str.startsWith "blob:" "blob:https://tools.example/0" = true.
Proof.
  apply (downloadFile_timers Fixtures.engine Fixtures.page
           (DVal (VStr "plain text")) (VStr "notes.md") (VStr "txt")
           VUndefined 100 "blob:https://tools.example/0").
  vm_compute. tauto.
Defined.

Lemma downloadFile_options_unused_blob :
  downloadFile Fixtures.engine Fixtures.page (DBlob (mkBlob 3))
    (VStr "a.bin") (VStr "pdf") VNull
  = downloadFile Fixtures.engine Fixtures.page (DBlob (mkBlob 3))
      (VStr "a.bin") (VStr "pdf") (VObj [("quality", VNum (Fin (1 # 2)%Q))]).
Proof.
  apply (downloadFile_options_unused Fixtures.engine Fixtures.page
           (DBlob (mkBlob 3))).
  intros c Hc. discriminate Hc.
Defined.


(** What is thrown need not be an error object: a name whose replace
    method throws a plain object with a message. *)
Example downloadFile_thrown_object :
  downloadFile Fixtures.engine Fixtures.page (DVal (VStr "data:,x"))
    (VObj [("replace",
            VFunction "replace" "replace() { throw {message: 'too large'} }"
              true (VObj [("message", VStr "too large")]))])
    (VStr "png") VUndefined
  = ([EConsoleError (VObj [("message", VStr "too large")])],
     Return (DFailure (VStr "too large") size_hint)).
Proof. reflexivity. Qed.

(** A name that is an object with a replace method of its own: the
    download name is made of what the three calls give. *)
Example downloadFile_object_name :
  downloadFile Fixtures.engine Fixtures.page (DVal (VStr "data:,x"))
    (VObj [("replace", VNative (NFunction "toString"))]) (VStr "png")
    VUndefined
  = ([ECreateAnchor "data:,x" "_object_Object_-converted.png";
      EAppendChild; EClick; ERemoveChild],
     Return (DSuccess "_object_Object_-converted.png")).
Proof. reflexivity. Qed.



Section DownloadErrors.

Variable E : Engine.
Variable H : Host.



(** With a canvas and null options (not undefined, which stands for the
    default) reading the quality raises a TypeError: the failure is
    reported and the encoder is never called. *)
Theorem downloadFile_canvas_null_options (c : Canvas) (fn f : string) :
  fn <> EmptyString -> f <> EmptyString ->
  exists je,
    err_name je = "TypeError"
    /\ downloadFile E H (DCanvas c) (VStr fn) (VStr f) VNull
       = ([EConsoleError (error_value je)],
          Return (DFailure (VStr (err_message je))
                    (suggestion_for (Str.toLowerCase (err_message je))))).
Proof.
  intros Hfn Hf. unfold downloadFile. cbn [default_param].
  rewrite downloadFile_try_strings; [| reflexivity | exact Hfn | exact Hf].
  destruct (extension_text E (Str.toLowerCase f)) as [ext Hext].
  change (@pair (list Event) (Completion string) [] (Return ext))
    with (ret ext) in Hext.
  rewrite Hext, bind_ret_l.
  eexists (mkJsError _ _). split; [reflexivity|].
  cbn [resolve_data get throw_TypeError bind throw try_catch].
  now rewrite downloadFile_catch_error.
Qed.

End DownloadErrors.


Lemma downloadFile_canvas_null_options_jpeg :
  exists je,
    err_name je = "TypeError"
    /\ downloadFile Fixtures.engine Fixtures.page (DCanvas Fixtures.canvas)
         (VStr "a.png") (VStr "jpeg") VNull
       = ([EConsoleError (error_value je)],
          Return (DFailure (VStr (err_message je))
                    (suggestion_for (Str.toLowerCase (err_message je))))).
Proof.
  apply (downloadFile_canvas_null_options Fixtures.engine Fixtures.page
           Fixtures.canvas "a.png" "jpeg"); discriminate.
Defined.

(** ** Further properties of validateFile *)

Lemma split_no_sep (sep : ascii) (s : string) :
  Str.all (fun c => negb (Ascii.eqb c sep)) s = true ->
  Str.split sep s = [s].
Proof.
  induction s as [|c s IH]; [reflexivity|].
  cbn [Str.all Str.split]. intros Hs.
  apply andb_true_iff in Hs. destruct Hs as [Hc Hs].
  apply negb_true_iff in Hc. now rewrite Hc, IH.
Qed.

Lemma split_app_sep (sep : ascii) (a b : string) :
  Str.split sep (a ++ String sep b)
  = (Str.split sep a ++ Str.split sep b)%list.
Proof.
  induction a as [|c a IH].
  - simpl. now rewrite Ascii.eqb_refl.
  - change (String c a ++ String sep b) with (String c (a ++ String sep b)).
    cbn [Str.split]. rewrite IH.
    destruct (Ascii.eqb c sep); [reflexivity|].
    pose proof (StrFacts.split_nonempty sep a) as Hne.
    destruct (Str.split sep a) as [|h t]; [congruence | reflexivity].
Qed.

(** The last segment of a name: what follows its last dot, or the whole
    name when it has no dot. *)
Lemma last_segment_spec (name seg : string) :
  Str.all (fun c => negb (Ascii.eqb c ".")) seg = true ->
  name = seg \/ (exists stem, name = stem ++ String "." seg) ->
  last_segment name = seg.
Proof.
  intros Hseg [-> | [stem ->]]; unfold last_segment.
  - now rewrite split_no_sep.
  - rewrite split_app_sep, rev_app_distr, (split_no_sep "." seg Hseg).
    reflexivity.
Qed.

Section ValidationMore.

Variable E : Engine.

(** The size check is strict and the type check asks for a truthy type
    only: a present file whose size is at most maxSizeMB * 1024 * 1024,
    the limit itself included, and whose type is not empty is valid, with
    no error. *)
Theorem validateFile_within_limit (file : value) (name : string) (b m : Q) :
  to_boolean file = true ->
  prop_of file p_name = VStr name ->
  prop_of file p_size = VNum (Fin b) ->
  (b <= m * inject_Z 1024 * inject_Z 1024)%Q ->
  to_boolean (prop_of file p_type) = true ->
  exists r,
    validateFile E file (Fin m) = ([], Return r)
    /\ isValid r = true /\ errors r = [].
Proof.
  intros Htrue Hname Hsize Hle Htype.
  assert (Hnum : to_number E (prop_of file p_size) = ([], Return (Fin b)))
    by now rewrite Hsize.
  rewrite (validateFile_present E file (Fin m) name (Fin b) Htrue Hname Hnum).
  cbv zeta. rewrite Htype. cbn [negb].
  assert (Hgt : number_gt (Fin b)
                  (number_mul (number_mul (Fin m) (num 1024)) (num 1024))
                = false).
  { apply not_true_is_false. intros Hgt. apply number_gt_limit in Hgt.
    destruct Hgt as (b' & m' & Hb & Hm & Hlt).
    injection Hb as <-. injection Hm as <-.
    exact (Qlt_not_le _ _ Hlt Hle). }
  rewrite Hgt. eexists. repeat split.
Qed.

(** A size that is missing, or is not a number at all, passes the size
    check whatever the limit is, and so does any size when the limit is
    NaN: the only error left is that of the type. *)
Theorem validateFile_size_unknown (file : value) (maxSizeMB : number)
    (name : string) (bytes : number) :
  to_boolean file = true ->
  prop_of file p_name = VStr name ->
  to_number E (prop_of file p_size) = ([], Return bytes) ->
  bytes = NaN \/ maxSizeMB = NaN ->
  exists r,
    validateFile E file maxSizeMB = ([], Return r)
    /\ errors r
       = (if to_boolean (prop_of file p_type) then []
          else ["Unable to determine file type"])
    /\ isValid r = to_boolean (prop_of file p_type).
Proof.
  intros Htrue Hname Hnum Hnan.
  rewrite (validateFile_present E file maxSizeMB name bytes Htrue Hname Hnum).
  cbv zeta.
  assert (Hgt : number_gt bytes
                  (number_mul (number_mul maxSizeMB (num 1024)) (num 1024))
                = false).
  { destruct Hnan as [-> | ->]; [reflexivity|]. now destruct bytes. }
  rewrite Hgt. eexists. split; [reflexivity|].
  destruct (to_boolean (prop_of file p_type)); split; reflexivity.
Qed.

(** For a present file whose size converts to a number, validateFile
    raises a TypeError when the name has no split method to call; for a
    name that is a primitive it throws exactly when the name is not a
    string. *)
Theorem validateFile_throws_iff (file : value) (maxSizeMB : number)
    (bytes : number) :
  to_boolean file = true ->
  to_number E (prop_of file p_size) = ([], Return bytes) ->
  (lacks_method m_split (prop_of file p_name) = true ->
   exists je,
     err_name je = "TypeError"
     /\ validateFile E file maxSizeMB = ([], Throw (error_value je)))
  /\ (is_primitive (prop_of file p_name) = true ->
      (exists e, outcome (validateFile E file maxSizeMB) = Throw e)
      <-> forall name, prop_of file p_name <> VStr name).
Proof.
  intros Htrue Hnum.
  assert (Hlacks : lacks_method m_split (prop_of file p_name) = true ->
            exists je,
              err_name je = "TypeError"
              /\ validateFile E file maxSizeMB
                 = ([], Throw (error_value je))).
  { intros Hlacks. unfold validateFile. rewrite Htrue. cbn [negb].
    assert (Hget : forall p, get E file p = ret (prop_of file p)).
    { intros p. destruct file; try reflexivity; discriminate. }
    rewrite !Hget, !bind_ret_l.
    change (@pair (list Event) (Completion number) [] (Return bytes))
      with (ret bytes) in Hnum.
    rewrite Hnum, !bind_ret_l.
    assert (Hns : forall s, prop_of file p_name <> VStr s).
    { intros s Hs. rewrite Hs in Hlacks. discriminate Hlacks. }
    destruct (call_method_lacks E m_split (prop_of file p_name) [LStr "."]
                Hlacks Hns) as (je & Hje & Hrun).
    exists je. split; [exact Hje|].
    destruct (prop_of file p_name) as [| | | |s|props|n|];
      try (rewrite Hrun; reflexivity).
    - exfalso. exact (Hns s eq_refl).
    - destruct n; try (rewrite Hrun; reflexivity). discriminate Hlacks. }
  split; [exact Hlacks|].
  intros Hprim. split.
  - intros [e Hthrow] name Hname.
    rewrite (validateFile_present E file maxSizeMB name bytes Htrue Hname
               Hnum) in Hthrow.
    discriminate Hthrow.
  - intros Hname.
    destruct Hlacks as (je & _ & Hrun).
    + destruct (prop_of file p_name) as [| | | |s|props|n|];
        try reflexivity; try discriminate Hprim.
      exfalso. exact (Hname s eq_refl).
    + exists (error_value je). now rewrite Hrun.
Qed.

(** fileInfo reports the name, size and type as they are, and the
    extension that getFileExtension gives for what follows the last dot
    of the name, or for the whole name when it has no dot. *)
Theorem validateFile_fileInfo (file : value) (maxSizeMB : number)
    (name seg : string) (bytes : number) :
  to_boolean file = true ->
  prop_of file p_name = VStr name ->
  to_number E (prop_of file p_size) = ([], Return bytes) ->
  Str.all (fun c => negb (Ascii.eqb c ".")) seg = true ->
  name = seg \/ (exists stem, name = stem ++ String "." seg) ->
  exists r info,
    validateFile E file maxSizeMB = ([], Return r)
    /\ fileInfo r = Some info
    /\ fi_name info = VStr name
    /\ fi_size info = prop_of file p_size
    /\ fi_type info = prop_of file p_type
    /\ getFileExtension E (VStr seg) = ([], Return (fi_extension info)).
Proof.
  intros Htrue Hname Hnum Hseg Hlast.
  rewrite (validateFile_present E file maxSizeMB name bytes Htrue Hname Hnum).
  cbv zeta. fold (last_segment name).
  rewrite (last_segment_spec name seg Hseg Hlast).
  do 2 eexists. repeat split.
Qed.

End ValidationMore.

Lemma validateFile_within_limit_exact :
  exists r,
    validateFile Fixtures.engine
      (VObj [("name", VStr "clip.webp"); ("type", VStr "image/webp");
             ("size", VNum (Fin (inject_Z (5 * 1024 * 1024))))])
      (Fin (inject_Z 5))
    = ([], Return r)
    /\ isValid r = true /\ errors r = [].
Proof.
  apply (validateFile_within_limit Fixtures.engine
           (VObj [("name", VStr "clip.webp"); ("type", VStr "image/webp");
                  ("size", VNum (Fin (inject_Z (5 * 1024 * 1024))))])
           "clip.webp" (inject_Z (5 * 1024 * 1024)) (inject_Z 5));
    try reflexivity.
  vm_compute. discriminate.
Defined.

Lemma validateFile_size_unknown_missing :
  exists r,
    validateFile Fixtures.engine
      (VObj [("name", VStr "clip.webp"); ("type", VStr "image/webp")])
      (num 5)
    = ([], Return r)
    /\ errors r = []
    /\ isValid r = true.
Proof.
  apply (validateFile_size_unknown Fixtures.engine
           (VObj [("name", VStr "clip.webp"); ("type", VStr "image/webp")])
           (num 5) "clip.webp" NaN); try reflexivity.
  left. reflexivity.
Defined.

Lemma validateFile_throws_iff_number_name :
  exists je,
    err_name je = "TypeError"
    /\ validateFile Fixtures.engine
         (VObj [("name", VNum (num 7)); ("size", VNum (num 10))]) (num 5)
       = ([], Throw (error_value je)).
Proof.
  apply (validateFile_throws_iff Fixtures.engine
           (VObj [("name", VNum (num 7)); ("size", VNum (num 10))])
           (num 5) (num 10)); reflexivity.
Defined.

(** A name that is an object with methods of its own: validateFile
    returns, with the extension found for what the calls give. *)
Example validateFile_object_name :
  validateFile Fixtures.engine
    (VObj [("name", VObj [("split", VNative (NFunction "valueOf"));
                           ("pop", VNative (NFunction "toString"))]);
           ("size", VNum (num 10)); ("type", VStr "image/png")]) (num 5)
  = ([], Return
           (mkValidationResult true []
              (Some (mkFileInfo
                       (VObj [("split", VNative (NFunction "valueOf"));
                              ("pop", VNative (NFunction "toString"))])
                       (VNum (num 10)) (VStr "image/png") (VStr "file"))))).
Proof. reflexivity. Qed.

Lemma validateFile_fileInfo_jpeg :
  exists r info,
    validateFile Fixtures.engine
      (VObj [("name", VStr "my.holiday.JPEG"); ("size", VNum (num 10));
             ("type", VStr "image/jpeg")]) (num 5)
    = ([], Return r)
    /\ fileInfo r = Some info
    /\ fi_name info = VStr "my.holiday.JPEG"
    /\ fi_size info = VNum (num 10)
    /\ fi_type info = VStr "image/jpeg"
    /\ getFileExtension Fixtures.engine (VStr "JPEG")
       = ([], Return (fi_extension info)).
Proof.
  apply (validateFile_fileInfo Fixtures.engine
           (VObj [("name", VStr "my.holiday.JPEG"); ("size", VNum (num 10));
                  ("type", VStr "image/jpeg")]) (num 5)
           "my.holiday.JPEG" "JPEG" (num 10)); try reflexivity.
  right. exists "my.holiday". reflexivity.
Defined.

(** ** formatFileSize *)

Lemma tenths_bounds (x : Q) :
  (inject_Z (tenths x) <= x * inject_Z 10 + (1 # 2)
   /\ x * inject_Z 10 + (1 # 2) < inject_Z (tenths x) + 1)%Q.
Proof.
  unfold tenths. split.
  - apply Qfloor_le.
  - pose proof (Qlt_floor (x * inject_Z 10 + (1 # 2))) as Hlt.
    rewrite inject_Z_plus in Hlt. exact Hlt.
Qed.

(** Up to 1024.0 the digits of toFixed(1) are the integer part, a point
    and the tenth; checked on each of the 10241 values. *)
Lemma fixed1_digits_small (n : Z) :
  (0 <= n <= 10240)%Z ->
  fixed1_digits n
  = decimal (Z.to_N (n / 10)) ++ "." ++ decimal (Z.to_N (n mod 10)).
Proof.
  intros Hn.
  assert (Hall : forallb
                   (fun k =>
                      String.eqb (fixed1_digits (Z.of_nat k))
                        (decimal (Z.to_N (Z.of_nat k / 10)) ++ "."
                         ++ decimal (Z.to_N (Z.of_nat k mod 10))))
                   (seq 0 (Z.to_nat 10241)) = true)
    by (vm_compute; reflexivity).
  rewrite forallb_forall in Hall.
  specialize (Hall (Z.to_nat n)).
  rewrite Z2Nat.id in Hall by lia.
  apply String.eqb_eq, Hall. apply in_seq. lia.
Qed.

Section FileSize.

Variable E : Engine.

Lemma toFixed1_small (x : Q) :
  (0 <= x)%Q -> (x < inject_Z 1024)%Q ->
  toFixed1 E (Fin x)
  = decimal (Z.to_N (tenths x / 10)) ++ "."
    ++ decimal (Z.to_N (tenths x mod 10))
  /\ (0 <= tenths x <= 10240)%Z.
Proof.
  intros H0 H1.
  pose proof (tenths_bounds x) as [Hlo Hhi].
  assert (Hn : (0 <= tenths x <= 10240)%Z).
  { change (inject_Z 10) with (10 # 1)%Q in Hlo, Hhi.
    change (inject_Z 1024) with (1024 # 1)%Q in H1.
    assert (Hq1 : (inject_Z (-1) < inject_Z (tenths x))%Q)
      by (change (inject_Z (-1)) with (-1 # 1)%Q; lra).
    assert (Hq2 : (inject_Z (tenths x) < inject_Z 10241)%Q)
      by (change (inject_Z 10241) with (10241 # 1)%Q; lra).
    rewrite <- Zlt_Qlt in Hq1, Hq2. lia. }
  split; [|exact Hn].
  unfold toFixed1.
  assert (Hpos : Qle_bool 0 x = true) by now apply Qle_bool_iff.
  rewrite Hpos.
  assert (Habs : (Qabs x == x)%Q) by now apply Qabs_pos.
  assert (Hbig : Qle_bool (inject_Z (10 ^ 21)) (Qabs x) = false).
  { apply not_true_is_false. intros Hc. apply Qle_bool_iff in Hc.
    rewrite Habs in Hc.
    change (inject_Z (10 ^ 21)) with (1000000000000000000000 # 1)%Q in Hc.
    change (inject_Z 1024) with (1024 # 1)%Q in H1. lra. }
  rewrite Hbig. cbn [append].
  assert (Ht : tenths (Qabs x) = tenths x).
  { unfold tenths. apply Qfloor_comp. now rewrite Habs. }
  rewrite Ht. now apply fixed1_digits_small.
Qed.

(** The unit and the scaled size for a size from 1024 bytes up to 1 GiB. *)
Lemma formatFileSize_scaled (b : Q) :
  (inject_Z 1024 <= b)%Q -> (b < inject_Z 1073741824)%Q ->
  exists (unit : string) (d : positive),
    formatFileSize E (Fin b)
    = toFixed1 E (Fin (b / inject_Z (Zpos d))) ++ unit
    /\ ((b < inject_Z 1048576)%Q /\ unit = " KB" /\ d = 1024%positive
        \/ (inject_Z 1048576 <= b)%Q /\ unit = " MB" /\ d = 1048576%positive)
    /\ (1 <= b / inject_Z (Zpos d))%Q
    /\ (b / inject_Z (Zpos d) < inject_Z 1024)%Q.
Proof.
  intros Hlo Hhi. unfold formatFileSize, number_lt, num, number_div.
  assert (H1 : Qle_bool (inject_Z 1024) b = true) by now apply Qle_bool_iff.
  rewrite H1. cbn [negb].
  change (inject_Z 1024) with (1024 # 1)%Q in Hlo.
  change (inject_Z 1073741824) with (1073741824 # 1)%Q in Hhi.
  destruct (Qle_bool (inject_Z 1048576) b) eqn:H2; cbn [negb].
  - apply Qle_bool_iff in H2.
    exists " MB", 1048576%positive. split; [reflexivity|].
    split; [right; repeat split; exact H2|].
    change (inject_Z 1048576) with (1048576 # 1)%Q in *.
    change (inject_Z 1024) with (1024 # 1)%Q.
    split; [apply Qle_shift_div_l | apply Qlt_shift_div_r]; lra.
  - assert (H3 : (b < inject_Z 1048576)%Q).
    { apply Qnot_le_lt. intros Hc. apply Qle_bool_iff in Hc. congruence. }
    exists " KB", 1024%positive. split; [reflexivity|].
    split; [left; repeat split; exact H3|].
    change (inject_Z 1048576) with (1048576 # 1)%Q in *.
    change (inject_Z 1024) with (1024 # 1)%Q.
    split; [apply Qle_shift_div_l | apply Qlt_shift_div_r]; lra.
Qed.

(** From 1024 bytes up to 1 GiB formatFileSize shows the size divided by
    1024 (below 1 MiB, unit KB) or by 1048576 (unit MB) with one decimal:
    the text is the integer part, a point, one digit and the unit, and
    the number [n] of tenths shown is the nearest to the scaled size,
    halves going up; it lies between 1.0 and 1024.0. *)
Theorem formatFileSize_rounding (b : Q) :
  (inject_Z 1024 <= b)%Q -> (b < inject_Z 1073741824)%Q ->
  exists (n : Z) (unit : string) (d : positive),
    formatFileSize E (Fin b)
    = (decimal (Z.to_N (n / 10)) ++ "." ++ decimal (Z.to_N (n mod 10)))
      ++ unit
    /\ ((b < inject_Z 1048576)%Q /\ unit = " KB" /\ d = 1024%positive
        \/ (inject_Z 1048576 <= b)%Q /\ unit = " MB" /\ d = 1048576%positive)
    /\ (10 <= n <= 10240)%Z
    /\ (inject_Z n - (1 # 2) <= inject_Z 10 * (b / inject_Z (Zpos d)))%Q
    /\ (inject_Z 10 * (b / inject_Z (Zpos d)) < inject_Z n + (1 # 2))%Q.
Proof.
  intros Hlo Hhi.
  destruct (formatFileSize_scaled b Hlo Hhi)
    as (unit & d & Hrun & Hunit & Hx1 & Hx2).
  set (x := (b / inject_Z (Zpos d))%Q) in *.
  assert (Hx0 : (0 <= x)%Q) by lra.
  destruct (toFixed1_small x Hx0 Hx2) as [Hfix Hn].
  pose proof (tenths_bounds x) as [Hlow Hhigh].
  change (inject_Z 10) with (10 # 1)%Q in *.
  exists (tenths x), unit, d. rewrite Hrun, Hfix.
  split; [reflexivity|]. split; [exact Hunit|].
  fold x. clearbody x.
  split; [|split; lra].
  assert (Hq : (inject_Z 9 < inject_Z (tenths x))%Q)
    by (change (inject_Z 9) with (9 # 1)%Q; lra).
  rewrite <- Zlt_Qlt in Hq. lia.
Qed.

(** Just below 1 MiB the size is still shown in KB and rounds up to
    "1024.0 KB": from 1048525 bytes on, up to 1048575. *)
Theorem formatFileSize_below_mebibyte (b : Q) :
  (inject_Z 1048525 <= b)%Q -> (b < inject_Z 1048576)%Q ->
  formatFileSize E (Fin b) = "1024.0 KB".
Proof.
  intros Hlo Hhi.
  change (inject_Z 1048525) with (1048525 # 1)%Q in Hlo.
  change (inject_Z 1048576) with (1048576 # 1)%Q in Hhi.
  assert (Hlo' : (inject_Z 1024 <= b)%Q)
    by (change (inject_Z 1024) with (1024 # 1)%Q; lra).
  assert (Hhi' : (b < inject_Z 1073741824)%Q)
    by (change (inject_Z 1073741824) with (1073741824 # 1)%Q; lra).
  destruct (formatFileSize_scaled b Hlo' Hhi')
    as (unit & d & Hrun & Hunit & Hx1 & Hx2).
  destruct Hunit as [(_ & -> & ->) | (Hc & _ & _)];
    [|change (inject_Z 1048576) with (1048576 # 1)%Q in Hc; lra].
  set (x := (b / inject_Z 1024)%Q) in *.
  assert (Hx0 : (0 <= x)%Q) by lra.
  destruct (toFixed1_small x Hx0 Hx2) as [Hfix Hn].
  pose proof (tenths_bounds x) as [_ Hhigh].
  assert (Hx : (1048525 # 1024 <= x)%Q).
  { unfold x. change (inject_Z 1024) with (1024 # 1)%Q.
    apply Qle_shift_div_l; [reflexivity|].
    setoid_replace ((1048525 # 1024) * (1024 # 1))%Q with (1048525 # 1)%Q
      by reflexivity.
    exact Hlo. }
  change (inject_Z 10) with (10 # 1)%Q in *.
  assert (Hq : (inject_Z 10239 < inject_Z (tenths x))%Q)
    by (change (inject_Z 10239) with (10239 # 1)%Q; lra).
  rewrite <- Zlt_Qlt in Hq.
  assert (Heq : tenths x = 10240%Z) by lia.
  rewrite Hrun, Hfix, Heq. reflexivity.
Qed.

End FileSize.

Lemma formatFileSize_rounding_2048 :
  exists (n : Z) (unit : string) (d : positive),
    formatFileSize Fixtures.engine (Fin (inject_Z 2048))
    = (decimal (Z.to_N (n / 10)) ++ "." ++ decimal (Z.to_N (n mod 10)))
      ++ unit
    /\ ((inject_Z 2048 < inject_Z 1048576)%Q /\ unit = " KB"
        /\ d = 1024%positive
        \/ (inject_Z 1048576 <= inject_Z 2048)%Q /\ unit = " MB"
           /\ d = 1048576%positive)
    /\ (10 <= n <= 10240)%Z
    /\ (inject_Z n - (1 # 2)
        <= inject_Z 10 * (inject_Z 2048 / inject_Z (Zpos d)))%Q
    /\ (inject_Z 10 * (inject_Z 2048 / inject_Z (Zpos d))
        < inject_Z n + (1 # 2))%Q.
Proof.
  apply (formatFileSize_rounding Fixtures.engine (inject_Z 2048));
    vm_compute; first [reflexivity | discriminate].
Defined.

Lemma formatFileSize_below_mebibyte_last :
  formatFileSize Fixtures.engine (Fin (inject_Z 1048575)) = "1024.0 KB".
Proof.
  apply (formatFileSize_below_mebibyte Fixtures.engine (inject_Z 1048575));
    vm_compute; first [reflexivity | discriminate].
Defined.

(** ** showStatus *)

Section Status.

Variable token_error_message : string -> string.

(** What a call leaves of a present element: the text is the message and
    the classes are "status-message", followed by the type when there is
    one other than that; what the element showed and which classes it had
    before is gone.  A type with whitespace is refused by the class list:
    the call throws after the text and the base class have been set. *)
Theorem showStatus_result (el : Element) (message type : string) :
  exists el',
    fst (showStatus token_error_message (Some el) message type) = Some el'
    /\ textContent el' = message
    /\ (has_whitespace type = false
        /\ snd (showStatus token_error_message (Some el) message type)
           = Return tt
        /\ classList el'
           = "status-message"
             :: (if String.eqb type "" || String.eqb type "status-message"
                 then [] else [type])
        \/ has_whitespace type = true
           /\ (exists e,
                  snd (showStatus token_error_message (Some el) message type)
                  = Throw e)
           /\ classList el' = ["status-message"]).
Proof.
  unfold showStatus, classList_add, add_token. cbn [textContent classList].
  destruct (String.eqb type "") eqn:Hempty; cbn [negb orb].
  - apply String.eqb_eq in Hempty. subst type.
    eexists. split; [reflexivity|]. split; [reflexivity|]. left.
    repeat split.
  - destruct (has_whitespace type) eqn:Hws.
    + eexists. split; [reflexivity|]. split; [reflexivity|]. right.
      repeat split. eexists; reflexivity.
    + cbn [existsb]. rewrite orb_false_r.
      eexists. split; [reflexivity|]. split; [reflexivity|]. left.
      repeat split. cbn [fst classList].
      destruct (String.eqb type "status-message"); reflexivity.
Qed.

(** The last call wins: the state left by a call on a present element
    does not depend on the calls made before it, whether they returned or
    threw. *)
Theorem showStatus_last_wins (el : Element) (message1 type1 : string)
    (message2 type2 : string) :
  showStatus token_error_message
    (fst (showStatus token_error_message (Some el) message1 type1))
    message2 type2
  = showStatus token_error_message (Some el) message2 type2.
Proof.
  unfold showStatus at 2. cbn [textContent classList].
  destruct (negb (String.eqb type1 "")).
  - unfold classList_add. destruct (has_whitespace type1); reflexivity.
  - reflexivity.
Qed.

(** An absent element stays absent and nothing is raised, whatever the
    message and the type are. *)
Lemma showStatus_absent (message type : string) :
  showStatus token_error_message None message type = (None, Return tt).
Proof. reflexivity. Qed.

End Status.
